(** * LightPulseTrigger: the Arduino sketch of emeir-pulse, embedded in Rocq

    The sketch [LightPulseTrigger.ino] reads a photo transistor, detects
    light pulses with a two-threshold trigger, skips a configured number of
    pulses and talks to a host over the serial line.  Its global variables
    become the fields of [State]; every function of the sketch becomes a
    function on [State].  The target is an AVR: [int] is 16 bits wide. *)

From stdpp Require Import strings gmap list.
From Stdlib Require Import ZArith Lia Ascii.

Local Open Scope Z_scope.

(** ** Machine integers *)

(** Conversion to [uint16_t]. *)
Definition to_uint16 (z : Z) : Z := z mod 65536.

(** Conversion to [int] (16 bits, two's complement). *)
Definition to_int16 (z : Z) : Z := (z + 32768) mod 65536 - 32768.

Definition INT_MIN : Z := -32768.
Definition INT_MAX : Z := 32767.

(** ** Characters *)

Definition NUL : ascii := "000"%char.
Definition LF : ascii := "010"%char.
Definition CR : ascii := "013"%char.
Definition SPACE : ascii := " "%char.

Definition code (c : ascii) : Z := Z.of_N (N_of_ascii c).

(** ** Pins and calls into the Arduino core *)

Definition HIGH : bool := true.
Definition LOW : bool := false.

Definition irOutPin : Z := 2.
Definition ledOutPin : Z := 12.

(** What the sketch asks of the serial port and of the output pins, in the
    order of the calls. *)
Inductive Event : Type :=
| Serial_begin (baud : Z)
| Serial_print_str (s : string)
| Serial_print_char (c : ascii)
| Serial_print_int (n : Z)
| Serial_println
| Serial_println_int (n : Z)
| pinMode_OUTPUT (pin : Z)
| digitalWrite (pin : Z) (level : bool).

(** ** Global variables and the world around them *)

Definition MAX_CMD_LEN : Z := 80.

Record State : Type := mkState {
  command : list ascii;        (* char command[MAX_CMD_LEN] *)
  inCount : Z;                 (* command buffer index *)
  cmdComplete : bool;
  mode : ascii;                (* 'C' command, 'D' data output *)
  dataOutput : ascii;          (* 'R' raw data, 'T' trigger events *)
  triggerLevelLow : Z;
  triggerLevelHigh : Z;
  triggerState : bool;
  counter : Z;
  eeprom : gmap Z Z;           (* EEPROM cells, a byte each *)
  serialIn : list ascii;       (* bytes received and not yet read *)
  trace : list Event;          (* calls made so far, oldest first *)
  adcReads : nat               (* number of analogRead calls so far *)
}.

Definition set_command (v : list ascii) (s : State) : State :=
  mkState v (inCount s) (cmdComplete s) (mode s) (dataOutput s)
    (triggerLevelLow s) (triggerLevelHigh s) (triggerState s) (counter s)
    (eeprom s) (serialIn s) (trace s) (adcReads s).

Definition set_inCount (v : Z) (s : State) : State :=
  mkState (command s) v (cmdComplete s) (mode s) (dataOutput s)
    (triggerLevelLow s) (triggerLevelHigh s) (triggerState s) (counter s)
    (eeprom s) (serialIn s) (trace s) (adcReads s).

Definition set_cmdComplete (v : bool) (s : State) : State :=
  mkState (command s) (inCount s) v (mode s) (dataOutput s)
    (triggerLevelLow s) (triggerLevelHigh s) (triggerState s) (counter s)
    (eeprom s) (serialIn s) (trace s) (adcReads s).

Definition set_mode (v : ascii) (s : State) : State :=
  mkState (command s) (inCount s) (cmdComplete s) v (dataOutput s)
    (triggerLevelLow s) (triggerLevelHigh s) (triggerState s) (counter s)
    (eeprom s) (serialIn s) (trace s) (adcReads s).

Definition set_dataOutput (v : ascii) (s : State) : State :=
  mkState (command s) (inCount s) (cmdComplete s) (mode s) v
    (triggerLevelLow s) (triggerLevelHigh s) (triggerState s) (counter s)
    (eeprom s) (serialIn s) (trace s) (adcReads s).

Definition set_triggerLevelLow (v : Z) (s : State) : State :=
  mkState (command s) (inCount s) (cmdComplete s) (mode s) (dataOutput s)
    v (triggerLevelHigh s) (triggerState s) (counter s)
    (eeprom s) (serialIn s) (trace s) (adcReads s).

Definition set_triggerLevelHigh (v : Z) (s : State) : State :=
  mkState (command s) (inCount s) (cmdComplete s) (mode s) (dataOutput s)
    (triggerLevelLow s) v (triggerState s) (counter s)
    (eeprom s) (serialIn s) (trace s) (adcReads s).

Definition set_triggerState (v : bool) (s : State) : State :=
  mkState (command s) (inCount s) (cmdComplete s) (mode s) (dataOutput s)
    (triggerLevelLow s) (triggerLevelHigh s) v (counter s)
    (eeprom s) (serialIn s) (trace s) (adcReads s).

Definition set_counter (v : Z) (s : State) : State :=
  mkState (command s) (inCount s) (cmdComplete s) (mode s) (dataOutput s)
    (triggerLevelLow s) (triggerLevelHigh s) (triggerState s) v
    (eeprom s) (serialIn s) (trace s) (adcReads s).

Definition set_eeprom (v : gmap Z Z) (s : State) : State :=
  mkState (command s) (inCount s) (cmdComplete s) (mode s) (dataOutput s)
    (triggerLevelLow s) (triggerLevelHigh s) (triggerState s) (counter s)
    v (serialIn s) (trace s) (adcReads s).

Definition set_serialIn (v : list ascii) (s : State) : State :=
  mkState (command s) (inCount s) (cmdComplete s) (mode s) (dataOutput s)
    (triggerLevelLow s) (triggerLevelHigh s) (triggerState s) (counter s)
    (eeprom s) v (trace s) (adcReads s).

Definition set_adcReads (v : nat) (s : State) : State :=
  mkState (command s) (inCount s) (cmdComplete s) (mode s) (dataOutput s)
    (triggerLevelLow s) (triggerLevelHigh s) (triggerState s) (counter s)
    (eeprom s) (serialIn s) (trace s) v.

(** A call into the Arduino core is appended to the trace. *)
Definition emit (evs : list Event) (s : State) : State :=
  mkState (command s) (inCount s) (cmdComplete s) (mode s) (dataOutput s)
    (triggerLevelLow s) (triggerLevelHigh s) (triggerState s) (counter s)
    (eeprom s) (serialIn s) (trace s ++ evs) (adcReads s).

(** The globals as their initialisers leave them, before [setup] runs.  The
    EEPROM content and the bytes the host sends are the world's. *)
Definition boot (e : gmap Z Z) (rx : list ascii) : State :=
  mkState (replicate (Z.to_nat MAX_CMD_LEN) NUL) 0 false "D"%char "T"%char
    0 0 false 0 e rx [] 0%nat.

(** ** The trigger detector *)

Section Detector.

(** [const int pulsesToSkip = 49;] in the sketch, a build-time setting. *)
Variable pulsesToSkip : Z.

Definition detectTrigger (val : Z) (s : State) : State :=
  let nextState :=
    if val >? triggerLevelHigh s then true
    else if val <? triggerLevelLow s then false
    else triggerState s in
  if negb (Bool.eqb nextState (triggerState s)) then
    let s1 := set_triggerState nextState s in
    if triggerState s1 then
      (* counter++ on a 16-bit [int] *)
      let s2 := set_counter (to_int16 (counter s1 + 1)) s1 in
      if counter s2 >? pulsesToSkip then
        emit [Serial_println_int 0; digitalWrite ledOutPin HIGH] s2
      else s2
    else
      if counter s1 >? pulsesToSkip then
        set_counter 0
          (emit [Serial_println_int 1; digitalWrite ledOutPin LOW] s1)
      else s1
  else s.

(** Feeding a sequence of samples, one call each. *)
Definition feed (samples : list Z) (s : State) : State :=
  foldl (fun st v => detectTrigger v st) s samples.

End Detector.

(** The value the sketch is built with. *)
Definition pulsesToSkip_default : Z := 49.

(** ** The EEPROM *)

(** Modelled from the spec: [eeprom_write_word] and [eeprom_read_word] come
    from the C library of the target ([avr/eeprom.h]), which is not part of
    the sources.  The spec describes the store as 16-bit words in
    non-volatile storage; a word occupies two consecutive byte cells, low
    byte first, and an erased cell reads 255. *)
Definition eeprom_read_byte (a : Z) (e : gmap Z Z) : Z :=
  default 255 (e !! a).

Definition eeprom_write_byte (a : Z) (b : Z) (e : gmap Z Z) : gmap Z Z :=
  <[a := b mod 256]> e.

Definition eeprom_read_word (a : Z) (e : gmap Z Z) : Z :=
  eeprom_read_byte a e + 256 * eeprom_read_byte (a + 1) e.

Definition eeprom_write_word (a : Z) (w : Z) (e : gmap Z Z) : gmap Z Z :=
  eeprom_write_byte (a + 1) (w / 256) (eeprom_write_byte a w e).

(** ** Text to integer *)

Definition isspace (c : ascii) : bool :=
  Ascii.eqb c SPACE || ((9 <=? code c) && (code c <=? 13)).

Definition isdigit (c : ascii) : bool :=
  (48 <=? code c) && (code c <=? 57).

Fixpoint skip_isspace (l : list ascii) : list ascii :=
  match l with
  | c :: l' => if isspace c then skip_isspace l' else l
  | [] => []
  end.

Fixpoint digits_value (l : list ascii) (acc : Z) : Z :=
  match l with
  | c :: l' =>
      if isdigit c then digits_value l' (10 * acc + (code c - 48)) else acc
  | [] => acc
  end.

(** Modelled from the spec: [atoi] is the C library's conversion, not part
    of the sources.  The spec calls it a best-effort integer conversion that
    yields 0 on failure: white space is skipped, an optional sign is read,
    then the decimal digits up to the first other character; no digit at all
    gives 0.  The result is an [int].  The argument is the text from the
    pointer on. *)
Definition atoi (l : list ascii) : Z :=
  match skip_isspace l with
  | c :: l' =>
      if Ascii.eqb c "-" then to_int16 (- digits_value l' 0)
      else if Ascii.eqb c "+" then to_int16 (digits_value l' 0)
      else to_int16 (digits_value (c :: l') 0)
  | [] => 0
  end.

(** ** The command buffer as a C array *)

(** [command[i]] as an rvalue; [None] outside the array. *)
Definition peek (buf : list ascii) (i : Z) : option ascii :=
  if (0 <=? i) && (i <? MAX_CMD_LEN) then buf !! Z.to_nat i else None.

(** [command[i] = c]; [None] outside the array. *)
Definition poke (buf : list ascii) (i : Z) (c : ascii) : option (list ascii) :=
  if (0 <=? i) && (i <? MAX_CMD_LEN)
  then Some (<[Z.to_nat i := c]> buf) else None.

(** The array has its declared size. *)
Definition wellFormed (s : State) : Prop :=
  length (command s) = Z.to_nat MAX_CMD_LEN.

(** The first scanning loop of [setTriggerLevels]: the pointer [p] advances
    while it points to a character that is not the terminator and is a
    space.  [rest] is the array from [p] on; the result is the final [p],
    and [None] when the scan leaves the array. *)
Fixpoint skipSpaces (rest : list ascii) (p : nat) : option nat :=
  match rest with
  | c :: rest' =>
      if negb (Ascii.eqb c NUL) && Ascii.eqb c SPACE
      then skipSpaces rest' (S p) else Some p
  | [] => None
  end.

(** The second scanning loop: [q] advances while it points to a character
    that is neither the terminator nor a space. *)
Fixpoint skipToken (rest : list ascii) (q : nat) : option nat :=
  match rest with
  | c :: rest' =>
      if negb (Ascii.eqb c NUL) && negb (Ascii.eqb c SPACE)
      then skipToken rest' (S q) else Some q
  | [] => None
  end.

(** One half of [setTriggerLevels]: from index [start], skip spaces to [p],
    run [q] from [p + 1] over the token, write the terminator at [q].  The
    result is the buffer, [p] and [q]. *)
Definition cutToken (buf : list ascii) (start : nat)
  : option (list ascii * nat * nat) :=
  p ← skipSpaces (drop start buf) start;
  q ← skipToken (drop (S p) buf) (S p);
  buf' ← poke buf (Z.of_nat q) NUL;
  Some (buf', p, q).

(** The two integers that [setTriggerLevels] hands to [eeprom_write_word],
    with the buffer as the two cuts leave it. *)
Definition parseLevels (buf : list ascii) : option (list ascii * Z * Z) :=
  '(buf1, p, q) ← cutToken buf 1;
  '(buf2, p', _) ← cutToken buf1 (S q);
  Some (buf2, atoi (drop p buf1), atoi (drop p' buf2)).

Definition isTerminator (c : ascii) : bool :=
  Ascii.eqb c LF || Ascii.eqb c CR.

(** Two EEPROM words that do not share a cell. *)
Definition disjointSlots (a b : Z) : Prop := a + 1 < b \/ b + 1 < a.

(** ** Outcomes of a call that may wait for the host *)

Inductive Outcome : Type :=
| Returned (s : State)   (* the call returns *)
| Waiting (s : State)    (* the host sends nothing more: the call polls forever *)
| Undefined.             (* an access outside [command]: no defined behaviour *)

Definition andThen (o : Outcome) (k : State -> Outcome) : Outcome :=
  match o with
  | Returned s => k s
  | Waiting s => Waiting s
  | Undefined => Undefined
  end.

Definition orUndefined (o : option State) : Outcome :=
  match o with
  | Some s => Returned s
  | None => Undefined
  end.

Notation "'let*' s ':=' o 'in' k" := (andThen o (fun s => k))
  (at level 10, s name, o at level 200, k at level 200, only parsing).

(** ** Calibration and the command interpreter *)

Section Firmware.

Variable pulsesToSkip : Z.

(** The EEPROM addresses of the two stored words: what the pointers
    [&triggerLevelLowAddr] and [&triggerLevelHighAddr], handed to
    [eeprom_write_word] and [eeprom_read_word], denote. *)
Variables lowSlot highSlot : Z.

(** The conversion results of the analog input, in the order of the
    [analogRead] calls. *)
Variable analogIn : nat -> Z.

Definition setTriggerLevels (s : State) : option State :=
  '(buf1, p, _q) ← cutToken (command s) 1;
  let e1 := eeprom_write_word lowSlot (to_uint16 (atoi (drop p buf1))) (eeprom s) in
  '(buf2, p', _) ← cutToken buf1 (S _q);
  let e2 := eeprom_write_word highSlot (to_uint16 (atoi (drop p' buf2))) e1 in
  Some (set_eeprom e2 (set_command buf2 s)).

Definition readTriggerLevels (s : State) : State :=
  let s1 := set_triggerLevelLow
              (to_int16 (eeprom_read_word lowSlot (eeprom s))) s in
  let s2 := set_triggerLevelHigh
              (to_int16 (eeprom_read_word highSlot (eeprom s1))) s1 in
  emit [Serial_print_str "Trigger levels: ";
        Serial_print_int (triggerLevelLow s2);
        Serial_print_str " ";
        Serial_println_int (triggerLevelHigh s2)] s2.

(** The two nested [while] loops of [doCommand], run on the bytes the host
    sends. *)
Fixpoint readLine (input : list ascii) (s : State) : Outcome :=
  match input with
  | [] => Waiting (set_serialIn [] s)
  | inChar :: rest =>
      if isTerminator inChar then
        match poke (command s) (inCount s) NUL with
        | Some buf =>
            Returned (set_serialIn rest (set_cmdComplete true
                       (emit [Serial_println] (set_command buf s))))
        | None => Undefined
        end
      else if inCount s <? MAX_CMD_LEN - 1 then
        match poke (command s) (inCount s) inChar with
        | Some buf =>
            readLine rest
              (emit [Serial_print_char inChar]
                 (set_inCount (inCount s + 1) (set_command buf s)))
        | None => Undefined
        end
      else readLine rest s
  end.

(** The [switch (command[0])] of [doCommand]. *)
Definition interpret (s : State) : Outcome :=
  match peek (command s) 0 with
  | Some c =>
      if Ascii.eqb c "D" then Returned (set_dataOutput "R" (set_mode "D" s))
      else if Ascii.eqb c "T" then Returned (set_dataOutput "T" (set_mode "D" s))
      else if Ascii.eqb c "S" then
        orUndefined (readTriggerLevels <$> setTriggerLevels s)
      else Returned s
  | None => Undefined
  end.

(** The last three statements of [doCommand]. *)
Definition clearCommand (s : State) : Outcome :=
  match poke (command s) 0 NUL with
  | Some buf =>
      Returned (set_cmdComplete false (set_inCount 0 (set_command buf s)))
  | None => Undefined
  end.

Definition doCommand (s : State) : Outcome :=
  let s0 := emit [Serial_print_str ">"] s in
  let* s1 := (if cmdComplete s0 then Returned s0
              else readLine (serialIn s0) s0) in
  let* s2 := interpret s1 in
  clearCommand s2.

Definition setup (s : State) : State :=
  let s1 := emit [Serial_begin 9600;
                  pinMode_OUTPUT irOutPin; pinMode_OUTPUT ledOutPin] s in
  let s2 := readTriggerLevels s1 in
  emit [digitalWrite irOutPin LOW] s2.

(** The data-mode branch of [loop]: at most one pending byte is read. *)
Definition pollHost (s : State) : State :=
  match serialIn s with
  | inChar :: rest =>
      let s1 := set_serialIn rest s in
      if Ascii.eqb inChar "C" then set_mode "C" s1 else s1
  | [] => s
  end.

(** The measurement of [loop]. *)
Definition measure (s : State) : State :=
  let sensorValue := analogIn (adcReads s) in
  let s1 := set_adcReads (S (adcReads s)) s in
  if Ascii.eqb (dataOutput s1) "R" then
    emit [Serial_println_int sensorValue] s1
  else if Ascii.eqb (dataOutput s1) "T" then
    detectTrigger pulsesToSkip sensorValue s1
  else s1.

Definition loop (s : State) : Outcome :=
  let* s1 := (if Ascii.eqb (mode s) "C" then doCommand s
              else if Ascii.eqb (mode s) "D" then Returned (pollHost s)
              else Returned s) in
  Returned (if Ascii.eqb (mode s1) "D" then measure s1 else s1).

(** [loop] called again and again, at most [n] times, stopping where a call
    does not return. *)
Fixpoint iterate (n : nat) (s : State) : Outcome :=
  match n with
  | O => Returned s
  | S n' => let* s1 := loop s in iterate n' s1
  end.

End Firmware.

(** ** Observations on the command interpreter *)

(** The first characters that [doCommand] acts on. *)
Definition isCommandLetter (c : ascii) : bool :=
  Ascii.eqb c "D" || Ascii.eqb c "T" || Ascii.eqb c "S".

(** The part of a line that fits the buffer when the index is at [k]. *)
Definition fitting (k : Z) (line : list ascii) : list ascii :=
  take (Z.to_nat (MAX_CMD_LEN - 1 - k)) line.

(** The state expected once a line has been read: [kept] is in the buffer
    from the old index on, followed by the terminator; [kept] was echoed and
    a new line sent; the line is complete; [rest] is still to be read. *)
Definition afterLine (kept rest : list ascii) (s : State) : State :=
  let k := Z.to_nat (inCount s) in
  mkState
    (take k (command s) ++ kept ++
       NUL :: drop (k + length kept + 1) (command s))
    (inCount s + Z.of_nat (length kept)) true (mode s) (dataOutput s)
    (triggerLevelLow s) (triggerLevelHigh s) (triggerState s) (counter s)
    (eeprom s) rest
    (trace s ++ (Serial_print_char <$> kept) ++ [Serial_println])
    (adcReads s).

(** The buffer once [line] has been read into it from index 0. *)
Definition lineBuffer (line : list ascii) (s : State) : list ascii :=
  take 79 line ++ NUL :: drop (length (take 79 line) + 1) (command s).

(** Mode, output mode, levels, EEPROM and the count of analog reads are the
    same in both states. *)
Definition sameSettings (s s' : State) : Prop :=
  mode s' = mode s /\ dataOutput s' = dataOutput s /\
  triggerLevelLow s' = triggerLevelLow s /\
  triggerLevelHigh s' = triggerLevelHigh s /\
  eeprom s' = eeprom s /\ adcReads s' = adcReads s.

(** What the host sees and what is stored when the command line [line] sets
    the levels to [lo] and [hi]: [doCommand] returns; both levels and both
    EEPROM words have the new values; mode and output mode are as before; and
    the device sends the prompt, the echo of the line, a new line and the
    confirmation, nothing else. *)
Definition setsLevels (lowSlot highSlot : Z) (line : list ascii) (lo hi : Z)
    (t : ascii) (rest : list ascii) (s : State) : Prop :=
  exists s',
    doCommand lowSlot highSlot (set_serialIn (line ++ t :: rest) s)
      = Returned s' /\
    triggerLevelLow s' = lo /\ triggerLevelHigh s' = hi /\
    eeprom s' =
      eeprom_write_word highSlot (to_uint16 hi)
        (eeprom_write_word lowSlot (to_uint16 lo) (eeprom s)) /\
    to_int16 (eeprom_read_word lowSlot (eeprom s')) = lo /\
    to_int16 (eeprom_read_word highSlot (eeprom s')) = hi /\
    mode s' = mode s /\ dataOutput s' = dataOutput s /\
    serialIn s' = rest /\
    trace s' =
      (trace s ++ [Serial_print_str ">"]) ++
      (Serial_print_char <$> line) ++
      [Serial_println;
       Serial_print_str "Trigger levels: "; Serial_print_int lo;
       Serial_print_str " "; Serial_println_int hi].

(** What [doCommand] finds when it is entered: the buffer has its size, no
    partial line is held and no line is complete. *)
Definition ready (s : State) : Prop :=
  wellFormed s /\ inCount s = 0 /\ cmdComplete s = false.

(** The state of the detector is the same in both states. *)
Definition sameDetector (s s' : State) : Prop :=
  triggerState s' = triggerState s /\ counter s' = counter s.

(** The state an outcome carries, if any. *)
Definition stateOf (o : Outcome) : option State :=
  match o with
  | Returned s => Some s
  | Waiting s => Some s
  | Undefined => None
  end.

(** ** Observations on runs of the detector *)

(** The text of a host command as the bytes sent. *)
Definition txt (s : string) : list ascii := String.list_ascii_of_string s.

(** The two reports of the detector, as they appear in the trace. *)
Definition risingReport : list Event :=
  [Serial_println_int 0; digitalWrite ledOutPin HIGH].

Definition fallingReport : list Event :=
  [Serial_println_int 1; digitalWrite ledOutPin LOW].

(** The globals at start-up with the levels of the scenario, 80 and 100. *)
Definition scenarioStart : State :=
  set_triggerLevelHigh 100 (set_triggerLevelLow 80 (boot ∅ [])).

(** A state of the detector right after start-up: inactive, nothing counted. *)
Definition fresh (s : State) : Prop :=
  triggerState s = false /\ counter s = 0.

(** A step from [s] to [s'] saw the state go from inactive to active. *)
Definition risingEdge (s s' : State) : bool :=
  negb (triggerState s) && triggerState s'.

(** A step from [s] to [s'] saw the state go from active to inactive. *)
Definition fallingEdge (s s' : State) : bool :=
  triggerState s && negb (triggerState s').

(** A step from [s] to [s'] sent something. *)
Definition reported (s s' : State) : bool :=
  (length (trace s) <? length (trace s'))%nat.

(** The number of rising edges since the last reported falling edge, read off
    the run of the detector over [samples] from [s]: only the trigger state
    and the trace are looked at, never the counter.  [acc] is the number so
    far. *)
Fixpoint pulsesSinceReport (pulsesToSkip : Z) (samples : list Z) (s : State)
    (acc : Z) : Z :=
  match samples with
  | [] => acc
  | v :: rest =>
      let s' := detectTrigger pulsesToSkip v s in
      pulsesSinceReport pulsesToSkip rest s'
        (if fallingEdge s s' && reported s s' then 0
         else if risingEdge s s' then acc + 1
         else acc)
  end.

(** What holds of the counter in every state the detector reaches from a
    fresh one: it stays between 0 and [pulsesToSkip + 1], it is at most
    [pulsesToSkip] while the detector is inactive and at least 1 while it is
    active. *)
Definition counting (pulsesToSkip : Z) (s : State) : Prop :=
  0 <= counter s <= pulsesToSkip + 1 /\
  (triggerState s = false -> counter s <= pulsesToSkip) /\
  (triggerState s = true -> 1 <= counter s).

(** [k] light pulses as samples: [hiV] while the light is on, [loV] while it
    is off. *)
Definition pulses (k : nat) (hiV loV : Z) : list Z :=
  concat (replicate k [hiV; loV]).

(** The number of reports of one kind in a trace. *)
Fixpoint countPrintln (n : Z) (t : list Event) : nat :=
  match t with
  | Serial_println_int m :: t' =>
      if n =? m then S (countPrintln n t') else countPrintln n t'
  | _ :: t' => countPrintln n t'
  | [] => O
  end.

(** The number of rising edges in the run of the detector over [samples]. *)
Fixpoint countRising (pulsesToSkip : Z) (samples : list Z) (s : State) : nat :=
  match samples with
  | [] => O
  | v :: rest =>
      let s' := detectTrigger pulsesToSkip v s in
      ((if risingEdge s s' then 1 else 0) + countRising pulsesToSkip rest s')%nat
  end.

(** ** The samples on their own *)

(** The first lines of [detectTrigger]: the value that the local variable
    [nextState] gets for a sample, from the two levels and the trigger state
    before the call. *)
Definition nextState (low high : Z) (active : bool) (val : Z) : bool :=
  if val >? high then true
  else if val <? low then false
  else active.

(** What a run of samples shows by itself, with no counter involved:
    whether the light is on after them, and how many pulses have begun in
    them.  A pulse begins with each sample that takes [nextState] from
    false to true. *)
Definition seen (low high : Z) (w : bool * nat) (val : Z) : bool * nat :=
  let on := nextState low high (fst w) val in
  (on, if negb (fst w) && on then S (snd w) else snd w).

Definition lightOn (low high : Z) (samples : list Z) : bool :=
  fst (foldl (seen low high) (false, O) samples).

Definition pulsesBegun (low high : Z) (samples : list Z) : nat :=
  snd (foldl (seen low high) (false, O) samples).

(** The detector state [s] against what the samples show, [w]: the levels
    are [low] and [high], the trigger state is the light, and the counter
    is the number of pulses begun, counted modulo [pulsesToSkip + 1]; on a
    pulse it is the number of the pulse in its group, from 1 to
    [pulsesToSkip + 1]. *)
Definition tracks (pulsesToSkip low high : Z) (w : bool * nat) (s : State)
    : Prop :=
  triggerLevelLow s = low /\ triggerLevelHigh s = high /\
  triggerState s = fst w /\
  counter s =
    (if fst w then (Z.of_nat (snd w) - 1) mod (pulsesToSkip + 1) + 1
     else Z.of_nat (snd w) mod (pulsesToSkip + 1)) /\
  (fst w = true -> (1 <= snd w)%nat).

(** ** The detector: hysteresis *)

(** The level of the signal LED after the calls of a trace, [level] being
    the level before them: the last [digitalWrite] to [ledOutPin] decides. *)
Fixpoint ledLevel (t : list Event) (level : bool) : bool :=
  match t with
  | digitalWrite pin l :: t' =>
      ledLevel t' (if pin =? ledOutPin then l else level)
  | _ :: t' => ledLevel t' level
  | [] => level
  end.

(** The detector is active on a pulse whose rising edge was reported. *)
Definition onReportedPulse (pulsesToSkip : Z) (s : State) : bool :=
  triggerState s && (pulsesToSkip <? counter s).

(** The samples that [n] calls of [analogRead] return from the [k]-th call
    on. *)
Definition readings (analogIn : nat -> Z) (k n : nat) : list Z :=
  analogIn <$> seq k n.

(** The levels in the variables are the ones in the EEPROM. *)
Definition mirrored (lowSlot highSlot : Z) (s : State) : Prop :=
  triggerLevelLow s = to_int16 (eeprom_read_word lowSlot (eeprom s)) /\
  triggerLevelHigh s = to_int16 (eeprom_read_word highSlot (eeprom s)).

(** What holds of every state the device reaches: no partial line is held,
    the mode and the output mode are among their letters, the levels mirror
    the EEPROM and the counter is in its range. *)
Definition reachableInv (pulsesToSkip lowSlot highSlot : Z) (s : State)
    : Prop :=
  ready s /\
  (mode s = "C"%char \/ mode s = "D"%char) /\
  (dataOutput s = "R"%char \/ dataOutput s = "T"%char) /\
  mirrored lowSlot highSlot s /\
  counting pulsesToSkip s.

(** A token of an [S] line: no terminator, no space, no line end in it. *)
Definition isTokenChar (c : ascii) : bool :=
  negb (Ascii.eqb c NUL) && negb (Ascii.eqb c SPACE) && negb (isTerminator c).

(** The state expected while a line is still incomplete: [kept] is in the
    buffer from the old index on and was echoed, the index has moved behind
    it, and nothing is left to read. *)
Definition partialLine (kept : list ascii) (s : State) : State :=
  let k := Z.to_nat (inCount s) in
  mkState
    (take k (command s) ++ kept ++ drop (k + length kept) (command s))
    (inCount s + Z.of_nat (length kept)) (cmdComplete s) (mode s)
    (dataOutput s) (triggerLevelLow s) (triggerLevelHigh s)
    (triggerState s) (counter s) (eeprom s) []
    (trace s ++ (Serial_print_char <$> kept))
    (adcReads s).

Arguments to_int16 : simpl never.

Section DetectorFacts.

Variable N : Z.    (* pulsesToSkip *)

Lemma to_int16_id (z : Z) : INT_MIN <= z <= INT_MAX -> to_int16 z = z.
Proof.
  unfold to_int16, INT_MIN, INT_MAX. intros Hz.
  rewrite Z.mod_small by lia. lia.
Qed.

(** The trigger state after a sample, case by case. *)
Lemma detectTrigger_state (val : Z) (s : State) :
  triggerState (detectTrigger N val s) =
    if val >? triggerLevelHigh s then true
    else if val <? triggerLevelLow s then false
    else triggerState s.
Proof.
  unfold detectTrigger.
  destruct (val >? triggerLevelHigh s), (val <? triggerLevelLow s),
    (triggerState s) eqn:Hts; cbn;
    repeat (match goal with |- context [if ?b then _ else _] => destruct b end;
            cbn); try rewrite Hts; reflexivity.
Qed.

(** A sample that does not change the trigger state changes nothing. *)
Lemma detectTrigger_idle (val : Z) (s : State) :
  triggerState (detectTrigger N val s) = triggerState s ->
  detectTrigger N val s = s.
Proof.
  rewrite detectTrigger_state. unfold detectTrigger.
  destruct (val >? triggerLevelHigh s), (val <? triggerLevelLow s),
    (triggerState s); cbn; intros; try discriminate; reflexivity.
Qed.

(** Case analysis on the three tests of [detectTrigger] at sample [val] in
    state [s], with the arithmetic facts left as hypotheses. *)
Ltac detect_cases val s :=
  unfold detectTrigger;
  destruct (Z.gtb_spec val (triggerLevelHigh s));
  destruct (Z.ltb_spec val (triggerLevelLow s));
  destruct (triggerState s) eqn:?; cbn;
  repeat match goal with
    | |- context [if ?a >? ?b then _ else _] => destruct (Z.gtb_spec a b)
    end; cbn.

Lemma feed_cons (val : Z) (samples : list Z) (s : State) :
  feed N (val :: samples) s = feed N samples (detectTrigger N val s).
Proof. reflexivity. Qed.

Lemma feed_snoc (samples : list Z) (val : Z) (s : State) :
  feed N (samples ++ [val]) s = detectTrigger N val (feed N samples s).
Proof. unfold feed. by rewrite foldl_app. Qed.

Lemma feed_app (xs ys : list Z) (s : State) :
  feed N (xs ++ ys) s = feed N ys (feed N xs s).
Proof. unfold feed. by rewrite foldl_app. Qed.

(** Samples inside the band between the two levels change nothing, however
    many there are. *)
Lemma feed_dead_zone (samples : list Z) (s : State) :
  Forall (fun v => triggerLevelLow s <= v <= triggerLevelHigh s) samples ->
  feed N samples s = s.
Proof.
  induction 1 as [|v vs Hv _ IH]; [reflexivity|].
  rewrite feed_cons.
  assert (detectTrigger N v s = s) as ->; [|exact IH].
  apply detectTrigger_idle. rewrite detectTrigger_state.
  destruct (Z.gtb_spec v (triggerLevelHigh s)); [lia|].
  destruct (Z.ltb_spec v (triggerLevelLow s)); [lia|]. reflexivity.
Qed.

(** C1.  Hysteresis.  After a sample [val] the trigger state is true when
    [val] is above the high level; otherwise it is false when [val] is below
    the low level (with the low level not above the high one, that is
    whenever [val] is below the low level); in the band from the low to the
    high level the whole state (trigger state, pulse counter, output and
    everything else) is as before, for one sample and for any run of such
    samples.  The state goes from true to false only on a sample below the
    low level, and from false to true only on a sample above the high
    level. *)
Theorem detectTrigger_hysteresis (val : Z) (s : State) :
  let s' := detectTrigger N val s in
  (triggerLevelHigh s < val -> triggerState s' = true) /\
  (val <= triggerLevelHigh s -> val < triggerLevelLow s ->
     triggerState s' = false) /\
  (triggerLevelLow s <= triggerLevelHigh s -> val < triggerLevelLow s ->
     triggerState s' = false) /\
  (triggerLevelLow s <= val <= triggerLevelHigh s ->
     triggerState s' = triggerState s /\ counter s' = counter s /\
     trace s' = trace s /\ s' = s) /\
  (forall samples,
     Forall (fun v => triggerLevelLow s <= v <= triggerLevelHigh s) samples ->
     feed N samples s = s) /\
  (triggerState s = true -> triggerState s' = false ->
     val < triggerLevelLow s) /\
  (triggerState s = false -> triggerState s' = true ->
     triggerLevelHigh s < val).
Proof.
  cbn zeta.
  assert (triggerLevelLow s <= val <= triggerLevelHigh s ->
          detectTrigger N val s = s) as Hband.
  { intros Hv. apply (feed_dead_zone [val] s). by constructor. }
  split_and!.
  - intros H. rewrite detectTrigger_state.
    destruct (Z.gtb_spec val (triggerLevelHigh s)); [done|lia].
  - intros H1 H2. rewrite detectTrigger_state.
    destruct (Z.gtb_spec val (triggerLevelHigh s)); [lia|].
    destruct (Z.ltb_spec val (triggerLevelLow s)); [done|lia].
  - intros H1 H2. rewrite detectTrigger_state.
    destruct (Z.gtb_spec val (triggerLevelHigh s)); [lia|].
    destruct (Z.ltb_spec val (triggerLevelLow s)); [done|lia].
  - intros Hv. rewrite (Hband Hv). done.
  - intros samples. apply feed_dead_zone.
  - intros Ht. rewrite detectTrigger_state, Ht.
    destruct (Z.gtb_spec val (triggerLevelHigh s)); [done|].
    destruct (Z.ltb_spec val (triggerLevelLow s)); done.
  - intros Ht. rewrite detectTrigger_state, Ht.
    destruct (Z.gtb_spec val (triggerLevelHigh s)); [done|].
    destruct (Z.ltb_spec val (triggerLevelLow s)); done.
Qed.

(** C9.  The test against the high level comes first: a sample above the
    high level makes the trigger state true whether or not it is also below
    the low level.  With the levels inverted (low above high) the detector
    is therefore not stuck: every sample above the high level makes it
    active, among them the ones that are also below the low level, and
    every sample below the low level and not above the high one makes it
    inactive; a sample of each kind exists. *)
Theorem detectTrigger_high_first (val : Z) (s : State) :
  (triggerLevelHigh s < val ->
     triggerState (detectTrigger N val s) = true) /\
  (triggerLevelHigh s < val < triggerLevelLow s ->
     triggerState (detectTrigger N val s) = true) /\
  (triggerLevelHigh s < triggerLevelLow s ->
     (val < triggerLevelLow s -> val <= triggerLevelHigh s ->
        triggerState (detectTrigger N val s) = false) /\
     triggerState (detectTrigger N (triggerLevelHigh s + 1) s) = true /\
     triggerState (detectTrigger N (triggerLevelHigh s) s) = false).
Proof.
  rewrite !detectTrigger_state.
  split; [|split; [|intros Hinv; split; [|split]]].
  - intros H. destruct (Z.gtb_spec val (triggerLevelHigh s)); [done|lia].
  - intros H. destruct (Z.gtb_spec val (triggerLevelHigh s)); [done|lia].
  - intros H1 H2. destruct (Z.gtb_spec val (triggerLevelHigh s)); [lia|].
    destruct (Z.ltb_spec val (triggerLevelLow s)); [done|lia].
  - destruct (Z.gtb_spec (triggerLevelHigh s + 1) (triggerLevelHigh s));
      [done|lia].
  - destruct (Z.gtb_spec (triggerLevelHigh s) (triggerLevelHigh s)); [lia|].
    destruct (Z.ltb_spec (triggerLevelHigh s) (triggerLevelLow s));
      [done|lia].
Qed.

(** ** The detector: counting and decimation *)

Hypothesis N_range : 0 <= N < INT_MAX.

(** The five ways a sample can be handled in a state that satisfies
    [counting]. *)
Lemma detectTrigger_counted (val : Z) (s : State) :
  counting N s ->
  detectTrigger N val s = s \/
  (triggerState s = false /\ triggerLevelHigh s < val /\ counter s < N /\
   detectTrigger N val s =
     set_counter (counter s + 1) (set_triggerState true s)) \/
  (triggerState s = false /\ triggerLevelHigh s < val /\ counter s = N /\
   detectTrigger N val s =
     emit risingReport
       (set_counter (counter s + 1) (set_triggerState true s))) \/
  (triggerState s = true /\ val <= triggerLevelHigh s /\
   val < triggerLevelLow s /\ counter s <= N /\
   detectTrigger N val s = set_triggerState false s) \/
  (triggerState s = true /\ val <= triggerLevelHigh s /\
   val < triggerLevelLow s /\ counter s = N + 1 /\
   detectTrigger N val s =
     set_counter 0 (emit fallingReport (set_triggerState false s))).
Proof.
  intros (Hc & Hoff & Hon). unfold INT_MAX in N_range.
  detect_cases val s; auto;
    try (rewrite to_int16_id in * by (unfold INT_MIN, INT_MAX; lia)).
  all: try (specialize (Hoff eq_refl)); try (specialize (Hon eq_refl)).
  all: first
    [ right; left; repeat split; (lia || done)
    | right; right; left; repeat split; (lia || done)
    | right; right; right; left; repeat split; (lia || done)
    | right; right; right; right; repeat split; (lia || done) ].
Qed.

Lemma counting_fresh (s : State) : fresh s -> counting N s.
Proof. intros [Ht Hc]. unfold counting. rewrite Ht, Hc. repeat split; (lia || done). Qed.

Lemma counting_step (val : Z) (s : State) :
  counting N s -> counting N (detectTrigger N val s).
Proof.
  intros Hs. pose proof Hs as (Hc & Hoff & Hon).
  destruct (detectTrigger_counted val s Hs)
    as [-> | [(Ht & _ & Hn & ->) | [(Ht & _ & Hn & ->) |
       [(Ht & _ & _ & Hn & ->) | (Ht & _ & _ & Hn & ->)]]]];
    [assumption | unfold counting; cbn; repeat split; (lia || done) ..].
Qed.

Lemma counting_feed (samples : list Z) (s : State) :
  counting N s -> counting N (feed N samples s).
Proof.
  revert s. induction samples as [|v vs IH]; intros s Hs; [exact Hs|].
  rewrite feed_cons. apply IH, counting_step, Hs.
Qed.

Lemma trace_not_grown (t ev : list Event) : ev <> [] -> t <> t ++ ev.
Proof.
  intros Hev Heq. apply Hev.
  apply (app_inv_head t). by rewrite app_nil_r.
Qed.

(** The reports of one step, for a state that satisfies [counting]. *)
Lemma decimation_step (val : Z) (s : State) :
  counting N s ->
  let s' := detectTrigger N val s in
  (trace s' = trace s \/ trace s' = trace s ++ risingReport \/
   trace s' = trace s ++ fallingReport) /\
  (triggerState s' = true -> counter s' <= N -> trace s' = trace s) /\
  (triggerState s' = false -> counter s <= N -> trace s' = trace s) /\
  (trace s' = trace s ++ risingReport <->
     risingEdge s s' = true /\ counter s <= N < counter s') /\
  (trace s' = trace s ++ fallingReport <->
     fallingEdge s s' = true /\ N < counter s) /\
  (N = 0 -> triggerState s' <> triggerState s ->
     trace s' =
       trace s ++ (if triggerState s' then risingReport else fallingReport)).
Proof.
  intros Hs. pose proof Hs as (Hc & Hoff & Hon). cbn zeta.
  unfold risingEdge, fallingEdge.
  destruct (detectTrigger_counted val s Hs)
    as [-> | [(Ht & _ & Hn & ->) | [(Ht & _ & Hn & ->) |
       [(Ht & _ & _ & Hn & ->) | (Ht & _ & _ & Hn & ->)]]]];
    cbn; rewrite ?Ht; cbn.
  all: split_and!; try match goal with |- _ <-> _ => split end; intros;
    try match goal with H : _ = true /\ _ |- _ => destruct H as [? ?] end;
    try match goal with
      | H : ?t = ?t ++ _ |- _ => by apply trace_not_grown in H
      | H : _ ++ _ = _ ++ _ |- _ => apply app_inv_head in H; discriminate H
      end;
    try specialize (Hon Ht); auto; try lia; try done;
    by destruct (triggerState s).
Qed.

(** The trigger state after a call is the [nextState] of the sample. *)
Lemma detectTrigger_nextState (val : Z) (s : State) :
  triggerState (detectTrigger N val s) =
    nextState (triggerLevelLow s) (triggerLevelHigh s) (triggerState s) val.
Proof. apply detectTrigger_state. Qed.

Lemma detectTrigger_levels (val : Z) (s : State) :
  triggerLevelLow (detectTrigger N val s) = triggerLevelLow s /\
  triggerLevelHigh (detectTrigger N val s) = triggerLevelHigh s.
Proof.
  unfold detectTrigger. cbn.
  repeat (match goal with |- context [if ?b then _ else _] => destruct b end;
          cbn); done.
Qed.

(** Counting modulo [M]: one more either closes a group or adds one. *)
Lemma mod_succ_cases (a M : Z) :
  0 <= a -> 0 < M ->
  (a mod M = M - 1 /\ (a + 1) mod M = 0) \/
  (a mod M < M - 1 /\ (a + 1) mod M = a mod M + 1).
Proof.
  intros Ha HM. pose proof (Z.mod_pos_bound a M HM) as Hb.
  rewrite <- (Z.add_mod_idemp_l a 1 M) by lia.
  destruct (Z.eq_dec (a mod M) (M - 1)) as [E | E].
  - left. split; [exact E|]. rewrite E.
    replace (M - 1 + 1) with M by lia. apply Z_mod_same_full.
  - right. split; [lia|]. apply Z.mod_small. lia.
Qed.

Lemma tracks_fresh (s : State) :
  fresh s -> tracks N (triggerLevelLow s) (triggerLevelHigh s) (false, O) s.
Proof.
  intros [Ht Hc]. unfold tracks. cbn [fst snd].
  rewrite Ht, Hc. split_and!; try done.
Qed.

Lemma tracks_counting (low high : Z) (w : bool * nat) (s : State) :
  tracks N low high w s -> counting N s.
Proof.
  destruct w as [on r]. intros (_ & _ & Ht & Hc & _). cbn [fst snd] in *.
  pose proof (Z.mod_pos_bound (Z.of_nat r) (N + 1) ltac:(lia)).
  pose proof (Z.mod_pos_bound (Z.of_nat r - 1) (N + 1) ltac:(lia)).
  unfold counting. rewrite Ht, Hc. destruct on; split_and!; (lia || done).
Qed.

(** The goals that remain of one step once the case of [detectTrigger] is
    known: equations between traces, and arithmetic. *)
Ltac step_cases :=
  split_and!;
  try match goal with
    | |- _ <-> _ => split; [intros Htr | intros (? & ? & ?)]
    end;
  try match goal with
    | H : ?t = ?t ++ _ |- _ => by apply trace_not_grown in H
    | H : ?t ++ _ = ?t ++ _ |- _ => apply app_inv_head in H; discriminate H
    end;
  try split_and!;
  first [ done | lia | by left | by (right; left) | by (right; right) ].

(** One sample: the detector keeps to what the samples show, and it sends
    the rising report exactly when the sample begins a pulse whose number
    is a multiple of [N + 1], the falling report exactly when the sample
    ends such a pulse. *)
Lemma tracks_step (low high : Z) (w : bool * nat) (val : Z) (s : State) :
  tracks N low high w s ->
  let s' := detectTrigger N val s in
  tracks N low high (seen low high w val) s' /\
  (trace s' = trace s ++ risingReport <->
     fst w = false /\ high < val /\
     (Z.of_nat (snd w) + 1) mod (N + 1) = 0) /\
  (trace s' = trace s ++ fallingReport <->
     fst w = true /\ val <= high /\ val < low /\
     Z.of_nat (snd w) mod (N + 1) = 0) /\
  (trace s' = trace s \/ trace s' = trace s ++ risingReport \/
   trace s' = trace s ++ fallingReport).
Proof.
  intros Hw. pose proof (tracks_counting low high w s Hw) as Hs.
  destruct w as [on r]. destruct Hw as (Hlo & Hhi & Ht & Hc & Hr).
  cbn [fst snd] in *. cbn zeta.
  pose proof (detectTrigger_nextState val s) as Hns.
  pose proof (detectTrigger_levels val s) as [Hl' Hh'].
  rewrite Hlo, Hhi, Ht in Hns.
  unfold tracks, seen. cbn [fst snd]. rewrite <- Hns, Hl', Hh'.
  pose proof (Z.mod_pos_bound (Z.of_nat r) (N + 1) ltac:(lia)) as Hb.
  pose proof (Z.mod_pos_bound (Z.of_nat r - 1) (N + 1) ltac:(lia)) as Hb'.
  pose proof (mod_succ_cases (Z.of_nat r) (N + 1) ltac:(lia) ltac:(lia))
    as HA.
  assert (on = true ->
          ((Z.of_nat r - 1) mod (N + 1) = N /\
           Z.of_nat r mod (N + 1) = 0) \/
          ((Z.of_nat r - 1) mod (N + 1) < N /\
           Z.of_nat r mod (N + 1) = (Z.of_nat r - 1) mod (N + 1) + 1))
    as HB.
  { intros Hon. specialize (Hr Hon).
    pose proof (mod_succ_cases (Z.of_nat r - 1) (N + 1)
                  ltac:(lia) ltac:(lia)) as HB.
    replace (Z.of_nat r - 1 + 1) with (Z.of_nat r) in HB by lia. lia. }
  destruct (detectTrigger_counted val s Hs)
    as [E | [(Hts & Hv & Hn & E) | [(Hts & Hv & Hn & E) |
       [(Hts & Hv & Hv' & Hn & E) | (Hts & Hv & Hv' & Hn & E)]]]];
    rewrite E in *; clear E; cbn in Hns |- *;
    try (rewrite Hts in Ht; subst on); cbv iota in *; cbn [negb andb];
    try specialize (HB eq_refl); try specialize (Hr eq_refl);
    try replace (Z.of_nat (S r) - 1) with (Z.of_nat r) by lia.
  - rewrite Ht in Hns |- *. unfold nextState in Hns.
    destruct on; cbn [negb andb]; cbv iota in *;
      try specialize (HB eq_refl); try specialize (Hr eq_refl).
    + destruct (Z.gtb_spec val high); [|destruct (Z.ltb_spec val low)];
        try discriminate Hns; step_cases.
    + destruct (Z.gtb_spec val high); [discriminate Hns|]. step_cases.
  - step_cases.
  - step_cases.
  - step_cases.
  - step_cases.
Qed.

Lemma seen_mono (low high : Z) (samples : list Z) (w : bool * nat) :
  (snd w <= snd (foldl (seen low high) w samples))%nat.
Proof.
  revert w. induction samples as [|v vs IH]; intros w; [done|].
  cbn [foldl]. etrans; [|apply IH]. unfold seen. cbn [fst snd].
  destruct (negb (fst w) && nextState low high (fst w) v); lia.
Qed.

(** A run: the detector keeps to what the samples show, and sends nothing
    as long as no more than [N] pulses have begun. *)
Lemma tracks_feed (low high : Z) (samples : list Z) (w : bool * nat)
    (s : State) :
  tracks N low high w s ->
  tracks N low high (foldl (seen low high) w samples) (feed N samples s) /\
  (Z.of_nat (snd (foldl (seen low high) w samples)) <= N ->
   trace (feed N samples s) = trace s).
Proof.
  revert w s. induction samples as [|v vs IH]; intros w s Hw; [done|].
  rewrite feed_cons. cbn [foldl].
  destruct (tracks_step low high w v s Hw) as (Hw' & Hrise & Hfall & Hone).
  destruct (IH _ _ Hw') as [Hrun Hquiet]. split; [exact Hrun|].
  intros Hk. rewrite (Hquiet Hk).
  pose proof (seen_mono low high vs (seen low high w v)) as Hm.
  set (k := snd (foldl (seen low high) (seen low high w v) vs)) in *.
  destruct Hone as [E | [E | E]]; [exact E| |]; exfalso.
  - apply Hrise in E as (Hon & Hv & Hmod).
    unfold seen, nextState in Hm. cbn [fst snd] in Hm. rewrite Hon in Hm.
    destruct (Z.gtb_spec v high); [|lia]. cbn [negb andb] in Hm.
    rewrite Z.mod_small in Hmod by lia. lia.
  - apply Hfall in E as (Hon & _ & _ & Hmod).
    destruct Hw as (_ & _ & _ & _ & Hr). specialize (Hr Hon).
    assert (snd w <= snd (seen low high w v))%nat as Hm'
      by apply (seen_mono low high [v] w).
    rewrite Z.mod_small in Hmod by lia. lia.
Qed.

(** C2.  Decimation.  Take any samples fed to a fresh detector (inactive,
    counter 0), and one more sample [val].  The step for [val] sends
    nothing, or the rising report (the line 0) or the falling report (the
    line 1).  It sends nothing when the count it tests is at most
    [pulsesToSkip]: the counter after the step on the active side, the
    counter before the step on the inactive side.  The rising report is
    sent exactly when the step is a rising edge that takes the counter
    from at most [pulsesToSkip] to above it; the falling report exactly
    when the step is a falling edge with the counter above
    [pulsesToSkip].  With [pulsesToSkip = 0] every change of the trigger
    state sends its report.

    All of this is tied to the samples themselves.  The trigger state
    before [val] is the light as the samples show it, and the counter is
    the number of pulses begun in the samples, counted modulo
    [pulsesToSkip + 1].  Nothing at all is sent as long as no more than
    [pulsesToSkip] pulses have begun.  The rising report is sent exactly
    when [val] is above the high level while the light is off and the
    pulse it begins has a number that is a multiple of
    [pulsesToSkip + 1]; the falling report exactly when [val] is below the
    low level and not above the high one while the light is on and the
    pulse it ends has such a number.  With [pulsesToSkip = 0] every sample
    that begins or ends a pulse sends its report. *)
Theorem detectTrigger_decimation (s0 : State) (samples : list Z) (val : Z) :
  fresh s0 ->
  let s := feed N samples s0 in
  let s' := detectTrigger N val s in
  let low := triggerLevelLow s0 in
  let high := triggerLevelHigh s0 in
  let on := lightOn low high samples in
  let k := Z.of_nat (pulsesBegun low high samples) in
  ((trace s' = trace s \/ trace s' = trace s ++ risingReport \/
    trace s' = trace s ++ fallingReport) /\
   (triggerState s' = true -> counter s' <= N -> trace s' = trace s) /\
   (triggerState s' = false -> counter s <= N -> trace s' = trace s) /\
   (trace s' = trace s ++ risingReport <->
      risingEdge s s' = true /\ counter s <= N < counter s') /\
   (trace s' = trace s ++ fallingReport <->
      fallingEdge s s' = true /\ N < counter s) /\
   (N = 0 -> triggerState s' <> triggerState s ->
      trace s' =
        trace s ++ (if triggerState s' then risingReport else fallingReport)))
  /\
  triggerState s = on /\
  triggerState s' = nextState low high on val /\
  counter s = (if on then (k - 1) mod (N + 1) + 1 else k mod (N + 1)) /\
  (k <= N -> trace s = trace s0) /\
  (trace s' = trace s ++ risingReport <->
     on = false /\ high < val /\ (k + 1) mod (N + 1) = 0) /\
  (trace s' = trace s ++ fallingReport <->
     on = true /\ val <= high /\ val < low /\ k mod (N + 1) = 0) /\
  (N = 0 ->
     (on = false -> high < val -> trace s' = trace s ++ risingReport) /\
     (on = true -> val <= high -> val < low ->
        trace s' = trace s ++ fallingReport)).
Proof.
  intros Hfresh. cbn zeta. split.
  { apply decimation_step, counting_feed, counting_fresh, Hfresh. }
  destruct (tracks_feed _ _ samples _ _ (tracks_fresh s0 Hfresh))
    as [Hrun Hquiet].
  destruct (tracks_step _ _ _ val _ Hrun) as (Hstep & Hrise & Hfall & _).
  pose proof Hrun as (_ & _ & Ht & Hc & _).
  destruct Hstep as (_ & _ & Ht' & _).
  split_and!.
  - exact Ht.
  - exact Ht'.
  - exact Hc.
  - exact Hquiet.
  - exact Hrise.
  - exact Hfall.
  - intros ->. split.
    + intros Hon Hv. apply Hrise. split_and!; [done..|].
      apply Z.mod_1_r.
    + intros Hon Hv Hv'. apply Hfall. split_and!; [done..|].
      apply Z.mod_1_r.
Qed.

(** The counter against the rising edges since the last reported falling
    edge, along a run. *)
Lemma counter_pulsesSinceReport (samples : list Z) (s : State) :
  counting N s ->
  counter (feed N samples s) = pulsesSinceReport N samples s (counter s).
Proof.
  revert s. induction samples as [|v vs IH]; intros s Hs; [reflexivity|].
  rewrite feed_cons. cbn [pulsesSinceReport].
  rewrite (IH _ (counting_step v s Hs)). f_equal.
  pose proof Hs as (Hc & Hoff & Hon).
  unfold fallingEdge, risingEdge, reported.
  destruct (detectTrigger_counted v s Hs)
    as [-> | [(Ht & _ & Hn & ->) | [(Ht & _ & Hn & ->) |
       [(Ht & _ & _ & Hn & ->) | (Ht & _ & _ & Hn & ->)]]]];
    cbn -[Nat.ltb]; rewrite ?Ht; cbn -[Nat.ltb]; rewrite ?length_app;
    cbn -[Nat.ltb].
  - rewrite Nat.ltb_irrefl. by destruct (triggerState s).
  - reflexivity.
  - reflexivity.
  - by rewrite Nat.ltb_irrefl.
  - by destruct (Nat.ltb_spec (length (trace s)) (length (trace s) + 2)); [|lia].
Qed.

(** One pulse that is skipped: the counter goes up by one, nothing else
    changes. *)
Lemma pulse_skipped (hiV loV : Z) (s : State) :
  triggerState s = false -> 0 <= counter s < N ->
  triggerLevelHigh s < hiV ->
  loV <= triggerLevelHigh s -> loV < triggerLevelLow s ->
  feed N [hiV; loV] s = set_counter (counter s + 1) s.
Proof.
  intros Ht Hc Hhi Hlo1 Hlo2. unfold INT_MAX in N_range.
  destruct s as [cmd ic cc m dout lo hi ts c e rx tr n]. cbn in *. subst ts.
  unfold feed, detectTrigger; cbn.
  destruct (Z.gtb_spec hiV hi); [cbn|lia].
  rewrite to_int16_id by (unfold INT_MIN, INT_MAX; lia).
  destruct (Z.gtb_spec (c + 1) N); [lia|cbn].
  destruct (Z.gtb_spec loV hi); [lia|].
  destruct (Z.ltb_spec loV lo); [cbn|lia].
  destruct (Z.gtb_spec (c + 1) N); [lia|]. reflexivity.
Qed.

(** One pulse that takes the counter above [N]: both its edges are
    reported and the counter is back at 0. *)
Lemma pulse_reported (hiV loV : Z) (s : State) :
  triggerState s = false -> counter s = N ->
  triggerLevelHigh s < hiV ->
  loV <= triggerLevelHigh s -> loV < triggerLevelLow s ->
  feed N [hiV; loV] s =
    set_counter 0 (emit fallingReport (emit risingReport s)).
Proof.
  intros Ht Hc Hhi Hlo1 Hlo2. unfold INT_MAX in N_range.
  destruct s as [cmd ic cc m dout lo hi ts c e rx tr n]. cbn in *. subst ts c.
  unfold feed, detectTrigger; cbn.
  destruct (Z.gtb_spec hiV hi); [cbn|lia].
  rewrite to_int16_id by (unfold INT_MIN, INT_MAX; lia).
  destruct (Z.gtb_spec (N + 1) N); [cbn|lia].
  destruct (Z.gtb_spec loV hi); [lia|].
  destruct (Z.ltb_spec loV lo); [cbn|lia].
  destruct (Z.gtb_spec (N + 1) N); [|lia]. reflexivity.
Qed.

(** Skipped pulses add up: after [k] pulses that stay within the number
    to skip, the counter has grown by [k] and nothing was sent. *)
Lemma pulses_accumulate (k : nat) (hiV loV : Z) (s : State) :
  triggerState s = false -> 0 <= counter s ->
  counter s + Z.of_nat k <= N ->
  triggerLevelHigh s < hiV ->
  loV <= triggerLevelHigh s -> loV < triggerLevelLow s ->
  feed N (pulses k hiV loV) s = set_counter (counter s + Z.of_nat k) s.
Proof.
  revert s. induction k as [|k IH]; intros s Ht Hc Hk Hhi Hlo1 Hlo2.
  - cbn. destruct s; unfold set_counter; cbn. f_equal. lia.
  - change (pulses (S k) hiV loV) with ([hiV; loV] ++ pulses k hiV loV).
    rewrite feed_app, pulse_skipped by (auto; lia).
    rewrite IH by (cbn; auto; lia).
    destruct s; unfold set_counter; cbn. f_equal. lia.
Qed.

(** C3.  The counter is reset only by a reported falling edge.  Take any
    samples fed to a fresh detector and one more sample [val].  If the
    step for [val] takes the counter from a value other than 0 to 0, the
    step is a falling edge with the counter above [pulsesToSkip] and the
    falling report is sent; a falling report always leaves the counter at
    0.  A falling edge with the counter at most [pulsesToSkip] leaves the
    counter and the output as they are, and a rising edge adds one.  So
    the counter is the number of rising edges since the last reported
    falling edge, and [k] skipped pulses in a row leave it at [k] with
    nothing sent. *)
Theorem counter_reset_only_on_report (s0 : State) (samples : list Z)
    (val : Z) :
  fresh s0 ->
  let s := feed N samples s0 in
  let s' := detectTrigger N val s in
  (counter s' = 0 -> counter s <> 0 ->
     fallingEdge s s' = true /\ N < counter s /\
     trace s' = trace s ++ fallingReport) /\
  (trace s' = trace s ++ fallingReport -> counter s' = 0) /\
  (fallingEdge s s' = true -> counter s <= N ->
     counter s' = counter s /\ trace s' = trace s) /\
  (risingEdge s s' = true -> counter s' = counter s + 1) /\
  counter s' = pulsesSinceReport N (samples ++ [val]) s0 0 /\
  (forall (k : nat) (hiV loV : Z),
     Z.of_nat k <= N -> triggerLevelHigh s0 < hiV ->
     loV <= triggerLevelHigh s0 -> loV < triggerLevelLow s0 ->
     feed N (pulses k hiV loV) s0 = set_counter (Z.of_nat k) s0).
Proof.
  intros Hfresh. cbn zeta.
  pose proof (counting_feed samples s0 (counting_fresh s0 Hfresh)) as Hs.
  pose proof Hs as (Hc & Hoff & Hon).
  split_and!.
  - unfold fallingEdge.
    destruct (detectTrigger_counted val (feed N samples s0) Hs)
      as [-> | [(Ht & _ & Hn & ->) | [(Ht & _ & Hn & ->) |
         [(Ht & _ & _ & Hn & ->) | (Ht & _ & _ & Hn & ->)]]]];
      cbn; rewrite ?Ht; intros; try done; try lia.
    split_and!; (done || lia).
  - destruct (detectTrigger_counted val (feed N samples s0) Hs)
      as [-> | [(Ht & _ & Hn & ->) | [(Ht & _ & Hn & ->) |
         [(Ht & _ & _ & Hn & ->) | (Ht & _ & _ & Hn & ->)]]]];
      cbn; intros H; try done.
    + by apply trace_not_grown in H.
    + by apply trace_not_grown in H.
    + apply app_inv_head in H. discriminate H.
    + by apply trace_not_grown in H.
  - unfold fallingEdge.
    destruct (detectTrigger_counted val (feed N samples s0) Hs)
      as [-> | [(Ht & _ & Hn & ->) | [(Ht & _ & Hn & ->) |
         [(Ht & _ & _ & Hn & ->) | (Ht & _ & _ & Hn & ->)]]]];
      cbn; rewrite ?Ht; intros; try done; lia.
  - unfold risingEdge.
    destruct (detectTrigger_counted val (feed N samples s0) Hs)
      as [-> | [(Ht & _ & Hn & ->) | [(Ht & _ & Hn & ->) |
         [(Ht & _ & _ & Hn & ->) | (Ht & _ & _ & Hn & ->)]]]];
      cbn; rewrite ?Ht; intros; try done.
    by destruct (triggerState (feed N samples s0)).
  - rewrite <- feed_snoc.
    rewrite counter_pulsesSinceReport by (by apply counting_fresh).
    by rewrite (proj2 Hfresh).
  - intros k hiV loV Hk Hhi Hlo1 Hlo2. destruct Hfresh as [Ht0 Hc0].
    rewrite pulses_accumulate by (auto; lia).
    by rewrite Hc0.
Qed.

Lemma countPrintln_app (n : Z) (t u : list Event) :
  countPrintln n (t ++ u) = (countPrintln n t + countPrintln n u)%nat.
Proof.
  induction t as [|ev t IH]; [reflexivity|].
  destruct ev; cbn; try exact IH.
  destruct (n =? n0); cbn; by rewrite IH.
Qed.

(** Decimation over a whole run: of the rising edges seen, every
    [(N + 1)]-th one is reported. *)
Lemma reports_every_Nth (samples : list Z) (s : State) :
  counting N s ->
  Z.of_nat (countPrintln 0 (trace (feed N samples s))) =
    Z.of_nat (countPrintln 0 (trace s)) +
    (counter s mod (N + 1) + Z.of_nat (countRising N samples s)) / (N + 1).
Proof.
  revert s. induction samples as [|v vs IH]; intros s Hs.
  - cbn. pose proof (Z.mod_pos_bound (counter s) (N + 1)).
    rewrite Z.add_0_r, Z.div_small by lia. lia.
  - rewrite feed_cons. cbn [countRising].
    rewrite (IH _ (counting_step v s Hs)).
    pose proof Hs as (Hc & Hoff & Hon). unfold risingEdge.
    destruct (detectTrigger_counted v s Hs)
      as [-> | [(Ht & _ & Hn & ->) | [(Ht & _ & Hn & ->) |
         [(Ht & _ & _ & Hn & ->) | (Ht & _ & _ & Hn & ->)]]]];
      cbn [trace counter triggerState emit set_counter set_triggerState];
      rewrite ?Ht; cbn [negb andb].
    all: match goal with
         | |- context [countRising _ ?l ?st] =>
             generalize (countRising N l st); intros r
         end.
    + by destruct (triggerState s).
    + rewrite !Z.mod_small by lia. do 2 f_equal. lia.
    + rewrite countPrintln_app. cbn [countPrintln risingReport Z.eqb].
      rewrite Hn, Z.mod_same, Z.mod_small by lia.
      replace (N + Z.of_nat (1 + r)) with (1 * (N + 1) + Z.of_nat r) by lia.
      rewrite Z.add_0_l, Z.div_add_l by lia. lia.
    + reflexivity.
    + rewrite countPrintln_app. cbn [countPrintln fallingReport Z.eqb].
      rewrite Hn, Z.mod_same, Z.mod_0_l by lia. cbn [Nat.add]. lia.
Qed.

End DetectorFacts.

(** The sketch as built, with 49 pulses to skip: of the rising edges seen
    since start-up, every 50th is reported. *)
Lemma sketch_reports_every_50th (samples : list Z) (s : State) :
  fresh s ->
  Z.of_nat (countPrintln 0 (trace (feed pulsesToSkip_default samples s))) =
    Z.of_nat (countPrintln 0 (trace s)) +
    Z.of_nat (countRising pulsesToSkip_default samples s) / 50.
Proof.
  intros Hf.
  assert (0 <= pulsesToSkip_default < INT_MAX) as HN by (by vm_compute).
  rewrite (reports_every_Nth pulsesToSkip_default HN samples s)
    by (by apply counting_fresh).
  destruct Hf as [_ ->]. reflexivity.
Qed.

(** C4.  The scenario of the spec: levels 80 and 100, one pulse to skip, a
    detector that is inactive with its counter at 0, and the samples 50, 120,
    50, 120, 50, 120.  Nothing is sent for the first three samples; the
    fourth sample (the second 120) sends the rising report, the line 0; the
    fifth sends the falling report, the line 1; the sixth sends nothing.  So
    the whole run sends exactly these two reports. *)
Theorem scenario_trace (s : State) :
  fresh s -> triggerLevelLow s = 80 -> triggerLevelHigh s = 100 ->
  let samples := [50; 120; 50; 120; 50; 120] in
  trace (feed 1 (take 1 samples) s) = trace s /\
  trace (feed 1 (take 2 samples) s) = trace s /\
  trace (feed 1 (take 3 samples) s) = trace s /\
  trace (feed 1 (take 4 samples) s)
    = trace s ++ [Serial_println_int 0; digitalWrite ledOutPin HIGH] /\
  trace (feed 1 (take 5 samples) s)
    = trace s ++ [Serial_println_int 0; digitalWrite ledOutPin HIGH;
                  Serial_println_int 1; digitalWrite ledOutPin LOW] /\
  trace (feed 1 samples s)
    = trace s ++ [Serial_println_int 0; digitalWrite ledOutPin HIGH;
                  Serial_println_int 1; digitalWrite ledOutPin LOW].
Proof.
  intros [Ht Hc] Hlo Hhi.
  destruct s as [cmd ic cc m dout lo hi ts c e rx tr n]. cbn in *.
  subst. lazy -[app].
  split_and!; try reflexivity; by rewrite <- app_assoc.
Qed.

(** ** The EEPROM: what is written is read back *)

Lemma to_int16_range (z : Z) : INT_MIN <= to_int16 z <= INT_MAX.
Proof.
  unfold to_int16, INT_MIN, INT_MAX.
  pose proof (Z.mod_pos_bound (z + 32768) 65536). lia.
Qed.

Lemma to_uint16_range (z : Z) : 0 <= to_uint16 z < 65536.
Proof. unfold to_uint16. apply Z.mod_pos_bound. lia. Qed.

(** An [int] survives the conversion to [uint16_t] and back. *)
Lemma to_int16_to_uint16 (z : Z) :
  INT_MIN <= z <= INT_MAX -> to_int16 (to_uint16 z) = z.
Proof.
  unfold to_int16, to_uint16, INT_MIN, INT_MAX. intros Hz.
  rewrite Zplus_mod_idemp_l. rewrite Z.mod_small by lia. lia.
Qed.

Lemma eeprom_read_write_word (a w : Z) (e : gmap Z Z) :
  0 <= w < 65536 -> eeprom_read_word a (eeprom_write_word a w e) = w.
Proof.
  intros Hw.
  unfold eeprom_read_word, eeprom_write_word, eeprom_read_byte,
    eeprom_write_byte.
  rewrite (lookup_insert_ne _ (a + 1) a) by lia.
  rewrite !lookup_insert_eq. cbn.
  rewrite (Z.mod_small (w / 256)).
  - pose proof (Z.div_mod w 256 ltac:(lia)). lia.
  - split; [apply Z.div_pos; lia | apply Z.div_lt_upper_bound; lia].
Qed.

Lemma eeprom_read_write_other (a b w : Z) (e : gmap Z Z) :
  disjointSlots a b ->
  eeprom_read_word b (eeprom_write_word a w e) = eeprom_read_word b e.
Proof.
  intros Hab. unfold disjointSlots in Hab.
  unfold eeprom_read_word, eeprom_write_word, eeprom_read_byte,
    eeprom_write_byte.
  rewrite !lookup_insert_ne by lia. reflexivity.
Qed.

Lemma atoi_range (l : list ascii) : INT_MIN <= atoi l <= INT_MAX.
Proof.
  unfold atoi. destruct (skip_isspace l) as [|c l']; [by vm_compute|].
  repeat match goal with |- context [if ?b then _ else _] => destruct b end;
    apply to_int16_range.
Qed.

Section CalibrationFacts.

Variables lowSlot highSlot : Z.
Hypothesis slots : disjointSlots lowSlot highSlot.

(** The two writes of [setTriggerLevels], then the two reads of
    [readTriggerLevels]. *)
Lemma read_after_write (lo hi : Z) (s : State) :
  INT_MIN <= lo <= INT_MAX -> INT_MIN <= hi <= INT_MAX ->
  let s' := readTriggerLevels lowSlot highSlot
              (set_eeprom
                 (eeprom_write_word highSlot (to_uint16 hi)
                    (eeprom_write_word lowSlot (to_uint16 lo) (eeprom s)))
                 s) in
  triggerLevelLow s' = lo /\ triggerLevelHigh s' = hi.
Proof.
  intros Hlo Hhi. cbn.
  assert (disjointSlots highSlot lowSlot) as Hrev.
  { unfold disjointSlots in *. lia. }
  rewrite (eeprom_read_write_other highSlot lowSlot) by exact Hrev.
  rewrite !eeprom_read_write_word by apply to_uint16_range.
  by rewrite !to_int16_to_uint16.
Qed.

(** [setTriggerLevels] in terms of the two parsed integers. *)
Lemma setTriggerLevels_parse (s : State) :
  setTriggerLevels lowSlot highSlot s =
    '(buf, lo, hi) ← parseLevels (command s);
    Some (set_eeprom
            (eeprom_write_word highSlot (to_uint16 hi)
               (eeprom_write_word lowSlot (to_uint16 lo) (eeprom s)))
            (set_command buf s)).
Proof.
  unfold setTriggerLevels, parseLevels.
  destruct (cutToken (command s) 1) as [[[buf1 p] q]|]; [cbn|reflexivity].
  destruct (cutToken buf1 (S q)) as [[[buf2 p'] q']|]; reflexivity.
Qed.

(** C8.  Calibration round trip.  Writing any two [int] values to the two
    slots, as [setTriggerLevels] does, and reading the slots, as
    [readTriggerLevels] does, gives the same two values back.  So for
    every command buffer that [setTriggerLevels] parses to a pair, the
    levels read afterwards are that pair, also after a restart of the
    device on that EEPROM content. *)
Theorem calibration_round_trip (lo hi : Z) (s : State) :
  INT_MIN <= lo <= INT_MAX -> INT_MIN <= hi <= INT_MAX ->
  (let s' := readTriggerLevels lowSlot highSlot
               (set_eeprom
                  (eeprom_write_word highSlot (to_uint16 hi)
                     (eeprom_write_word lowSlot (to_uint16 lo) (eeprom s)))
                  s) in
   triggerLevelLow s' = lo /\ triggerLevelHigh s' = hi) /\
  (forall buf,
     parseLevels (command s) = Some (buf, lo, hi) ->
     exists s1,
       setTriggerLevels lowSlot highSlot s = Some s1 /\
       triggerLevelLow (readTriggerLevels lowSlot highSlot s1) = lo /\
       triggerLevelHigh (readTriggerLevels lowSlot highSlot s1) = hi /\
       forall rx,
         triggerLevelLow (setup lowSlot highSlot (boot (eeprom s1) rx)) = lo /\
         triggerLevelHigh (setup lowSlot highSlot (boot (eeprom s1) rx)) = hi).
Proof.
  intros Hlo Hhi. split; [by apply read_after_write|].
  intros buf Hparse. rewrite setTriggerLevels_parse, Hparse. cbn.
  eexists. split; [reflexivity|].
  assert (disjointSlots highSlot lowSlot) as Hrev.
  { unfold disjointSlots in *. lia. }
  cbn.
  rewrite (eeprom_read_write_other highSlot lowSlot) by exact Hrev.
  rewrite !eeprom_read_write_word by apply to_uint16_range.
  by rewrite !to_int16_to_uint16.
Qed.

End CalibrationFacts.

(** ** Reading a command line *)

Lemma poke_inside (buf : list ascii) (i : Z) (c : ascii) :
  0 <= i < MAX_CMD_LEN -> poke buf i c = Some (<[Z.to_nat i := c]> buf).
Proof.
  intros Hi. unfold poke.
  destruct (Z.leb_spec 0 i); [|lia].
  destruct (Z.ltb_spec i MAX_CMD_LEN); [reflexivity|lia].
Qed.

Lemma poke_outside (buf : list ascii) (i : Z) (c : ascii) :
  i < 0 \/ MAX_CMD_LEN <= i -> poke buf i c = None.
Proof.
  intros Hi. unfold poke.
  destruct (Z.leb_spec 0 i); [|reflexivity].
  destruct (Z.ltb_spec i MAX_CMD_LEN); [lia|reflexivity].
Qed.

Lemma poke_length (buf buf' : list ascii) (i : Z) (c : ascii) :
  poke buf i c = Some buf' -> length buf' = length buf.
Proof.
  unfold poke. destruct (_ && _); [|discriminate].
  intros [= <-]. apply length_insert.
Qed.

Section ReadLine.

(** A byte that is not a line end, while there is room: stored, counted
    and echoed. *)
Lemma readLine_accept (c : ascii) (rest : list ascii) (s : State) :
  isTerminator c = false -> 0 <= inCount s < MAX_CMD_LEN - 1 ->
  readLine (c :: rest) s =
    readLine rest
      (emit [Serial_print_char c]
         (set_inCount (inCount s + 1)
            (set_command (<[Z.to_nat (inCount s) := c]> (command s)) s))).
Proof.
  intros Hc Hk. cbn [readLine]. rewrite Hc.
  destruct (Z.ltb_spec (inCount s) (MAX_CMD_LEN - 1)); [|lia].
  rewrite poke_inside by lia. reflexivity.
Qed.

(** A byte that is not a line end, with the buffer full: nothing happens. *)
Lemma readLine_drop (c : ascii) (rest : list ascii) (s : State) :
  isTerminator c = false -> MAX_CMD_LEN - 1 <= inCount s ->
  readLine (c :: rest) s = readLine rest s.
Proof.
  intros Hc Hk. cbn [readLine]. rewrite Hc.
  destruct (Z.ltb_spec (inCount s) (MAX_CMD_LEN - 1)); [lia|]. reflexivity.
Qed.

(** A line end completes the line wherever the index stands. *)
Lemma readLine_end (t : ascii) (rest : list ascii) (s : State) :
  isTerminator t = true -> 0 <= inCount s < MAX_CMD_LEN ->
  readLine (t :: rest) s =
    Returned
      (set_serialIn rest
         (set_cmdComplete true
            (emit [Serial_println]
               (set_command (<[Z.to_nat (inCount s) := NUL]> (command s))
                  s)))).
Proof.
  intros Ht Hk. cbn [readLine]. rewrite Ht.
  rewrite poke_inside by lia. reflexivity.
Qed.

Lemma fitting_nil (k : Z) : fitting k [] = [].
Proof. unfold fitting. apply take_nil. Qed.

Lemma fitting_cons_room (k : Z) (c : ascii) (line : list ascii) :
  0 <= k < MAX_CMD_LEN - 1 ->
  fitting k (c :: line) = c :: fitting (k + 1) line.
Proof.
  intros Hk. unfold fitting.
  replace (Z.to_nat (MAX_CMD_LEN - 1 - k))
    with (S (Z.to_nat (MAX_CMD_LEN - 1 - (k + 1)))) by lia.
  reflexivity.
Qed.

Lemma fitting_full (k : Z) (line : list ascii) :
  MAX_CMD_LEN - 1 <= k -> fitting k line = [].
Proof.
  intros Hk. unfold fitting.
  replace (Z.to_nat (MAX_CMD_LEN - 1 - k)) with 0%nat by lia.
  reflexivity.
Qed.

Lemma fitting_length (k : Z) (line : list ascii) :
  0 <= k ->
  k + Z.of_nat (length (fitting k line)) <= MAX_CMD_LEN - 1 \/
  fitting k line = [].
Proof.
  intros Hk. unfold fitting.
  destruct (Z.le_gt_cases (MAX_CMD_LEN - 1) k) as [Hfull|Hroom].
  - right. replace (Z.to_nat (MAX_CMD_LEN - 1 - k)) with 0%nat by lia.
    reflexivity.
  - left. rewrite length_take. lia.
Qed.

(** A whole line: the bytes that fit are stored and echoed, the others
    are dropped, and the line end completes the line. *)
Lemma readLine_line (line : list ascii) (t : ascii) (rest : list ascii)
    (s : State) :
  wellFormed s -> 0 <= inCount s < MAX_CMD_LEN ->
  Forall (fun c => isTerminator c = false) line ->
  isTerminator t = true ->
  readLine (line ++ t :: rest) s =
    Returned (afterLine (fitting (inCount s) line) rest s).
Proof.
  intros Hwf Hk Hline Ht. revert s Hwf Hk.
  induction Hline as [|c line Hc _ IH]; intros s Hwf Hk.
  - cbn [app]. rewrite readLine_end by done.
    rewrite fitting_nil. unfold afterLine, set_serialIn, set_cmdComplete,
      emit, set_command. cbn.
    f_equal. f_equal; [|lia].
    rewrite Nat.add_0_r, Nat.add_1_r.
    apply insert_take_drop. unfold wellFormed in Hwf. rewrite Hwf. lia.
  - cbn [app].
    destruct (Z.lt_ge_cases (inCount s) (MAX_CMD_LEN - 1)) as [Hroom|Hfull].
    + rewrite readLine_accept by (done || lia).
      rewrite IH.
      * rewrite fitting_cons_room by lia.
        unfold afterLine, emit, set_inCount, set_command. cbn.
        unfold wellFormed in Hwf.
        f_equal. f_equal.
        -- replace (Z.to_nat (inCount s + 1)) with (S (Z.to_nat (inCount s)))
             by lia.
           rewrite (take_S_r _ _ c).
           ++ rewrite take_insert_ge by lia.
              rewrite drop_insert_lt by lia.
              rewrite <- app_assoc. cbn. do 5 f_equal. lia.
           ++ apply list_lookup_insert_eq. rewrite Hwf. lia.
        -- lia.
        -- by rewrite <- app_assoc.
      * unfold wellFormed. cbn. rewrite length_insert. exact Hwf.
      * cbn. lia.
    + rewrite readLine_drop by (done || lia).
      rewrite IH by done. by rewrite !fitting_full by lia.
Qed.

End ReadLine.

(** ** What the command interpreter leaves alone *)

Lemma cutToken_length (buf buf' : list ascii) (start p q : nat) :
  cutToken buf start = Some (buf', p, q) -> length buf' = length buf.
Proof.
  unfold cutToken. intros H.
  destruct (skipSpaces (drop start buf) start) as [p0|]; [cbn in H|done].
  destruct (skipToken (drop (S p0) buf) (S p0)) as [q0|]; [cbn in H|done].
  destruct (poke buf (Z.of_nat q0) NUL) as [b|] eqn:Hpoke; [cbn in H|done].
  injection H as <- _ _. by apply poke_length in Hpoke.
Qed.

Lemma parseLevels_length (buf buf' : list ascii) (lo hi : Z) :
  parseLevels buf = Some (buf', lo, hi) -> length buf' = length buf.
Proof.
  unfold parseLevels. intros H.
  destruct (cutToken buf 1) as [[[buf1 p] q]|] eqn:H1; [cbn in H|done].
  destruct (cutToken buf1 (S q)) as [[[buf2 p'] q']|] eqn:H2; [cbn in H|done].
  injection H as <- _ _.
  apply cutToken_length in H1, H2. congruence.
Qed.

Section CommandFacts.

Variables lowSlot highSlot : Z.

Local Abbreviation setTriggerLevels := (setTriggerLevels lowSlot highSlot).
Local Abbreviation readTriggerLevels := (readTriggerLevels lowSlot highSlot).
Local Abbreviation interpret := (interpret lowSlot highSlot).
Local Abbreviation doCommand := (doCommand lowSlot highSlot).

Lemma readLine_detector (input : list ascii) (s s' : State) :
  stateOf (readLine input s) = Some s' ->
  sameDetector s s' /\ sameSettings s s' /\ (wellFormed s -> wellFormed s').
Proof.
  revert s. induction input as [|c rest IH]; intros s; cbn [readLine].
  - cbn. intros [= <-]. by cbn.
  - destruct (isTerminator c).
    + destruct (poke (command s) (inCount s) NUL) as [buf|] eqn:Hp;
        [|discriminate].
      cbn. intros [= <-]. unfold sameDetector, sameSettings, wellFormed.
      cbn. split_and!; try done.
      intros <-. by apply poke_length in Hp.
    + destruct (inCount s <? MAX_CMD_LEN - 1); [|by apply IH].
      destruct (poke (command s) (inCount s) c) as [buf|] eqn:Hp;
        [|discriminate].
      intros H. apply IH in H as (Hd & Hs & Hw).
      unfold sameDetector, sameSettings, wellFormed in *. cbn in *.
      split_and!; try tauto.
      intros Hlen. apply Hw. apply poke_length in Hp. congruence.
Qed.

Lemma setTriggerLevels_detector (s s' : State) :
  setTriggerLevels s = Some s' ->
  sameDetector s s' /\ adcReads s' = adcReads s /\ mode s' = mode s /\
  dataOutput s' = dataOutput s /\ trace s' = trace s /\
  inCount s' = inCount s /\ cmdComplete s' = cmdComplete s /\
  serialIn s' = serialIn s /\
  (wellFormed s -> wellFormed s').
Proof.
  rewrite setTriggerLevels_parse.
  destruct (parseLevels (command s)) as [[[buf lo] hi]|] eqn:Hp; [|done].
  cbn. intros [= <-]. unfold sameDetector, wellFormed. cbn.
  split_and!; try done.
  intros <-. by apply parseLevels_length in Hp.
Qed.

Lemma interpret_detector (s s' : State) :
  interpret s = Returned s' ->
  sameDetector s s' /\ adcReads s' = adcReads s /\
  serialIn s' = serialIn s /\ (wellFormed s -> wellFormed s').
Proof.
  unfold interpret. destruct (peek (command s) 0) as [c|]; [|done].
  repeat (match goal with |- context [if ?b then _ else _] => destruct b end);
    try (intros [= <-]; by cbn).
  destruct (setTriggerLevels s) as [s1|] eqn:Hset; [|done].
  cbn. intros [= <-].
  apply setTriggerLevels_detector in Hset
    as (Hd & Ha & _ & _ & _ & _ & _ & Hrx & Hw).
  unfold sameDetector, wellFormed in *. by cbn.
Qed.

Lemma interpret_total (s : State) : exists o, interpret s = o /\
  (o = Undefined \/ exists s', o = Returned s').
Proof.
  eexists. split; [reflexivity|].
  unfold interpret. destruct (peek (command s) 0) as [c|]; [|by left].
  repeat (match goal with |- context [if ?b then _ else _] => destruct b end);
    try (right; by eexists).
  destruct (setTriggerLevels s); cbn; [right; by eexists|by left].
Qed.

Lemma clearCommand_effect (s s' : State) :
  clearCommand s = Returned s' ->
  s' = set_cmdComplete false
         (set_inCount 0 (set_command (<[0%nat := NUL]> (command s)) s)).
Proof.
  unfold clearCommand. by intros [= <-].
Qed.

Lemma clearCommand_returns (s : State) :
  clearCommand s =
    Returned (set_cmdComplete false
                (set_inCount 0
                   (set_command (<[0%nat := NUL]> (command s)) s))).
Proof. reflexivity. Qed.

(** Whatever [doCommand] does, the detector's state and the count of analog
    reads are as before, whether the call returns or keeps waiting. *)
Lemma doCommand_detector (s s' : State) :
  stateOf (doCommand s) = Some s' ->
  sameDetector s s' /\ adcReads s' = adcReads s /\
  (wellFormed s -> wellFormed s').
Proof.
  unfold doCommand.
  set (s0 := emit [Serial_print_str ">"] s).
  assert (sameDetector s s0 /\ adcReads s0 = adcReads s /\
          (wellFormed s -> wellFormed s0)) as (Hd0 & Ha0 & Hw0) by done.
  assert (forall o, (o = Returned s0 \/ o = readLine (serialIn s0) s0) ->
          forall s1, stateOf o = Some s1 ->
          sameDetector s s1 /\ adcReads s1 = adcReads s /\
          (wellFormed s -> wellFormed s1)) as Hread.
  { intros o [-> | ->] s1 H1.
    - by injection H1 as <-.
    - apply readLine_detector in H1 as (Hd & Hs & Hw).
      unfold sameDetector, sameSettings in *.
      split_and!; try tauto; try congruence; destruct Hd; congruence. }
  specialize (Hread (if cmdComplete s0 then Returned s0
                     else readLine (serialIn s0) s0)).
  destruct (if cmdComplete s0 then Returned s0
            else readLine (serialIn s0) s0) as [s1|s1|] eqn:Ho;
    [| |done].
  - assert (sameDetector s s1 /\ adcReads s1 = adcReads s /\
            (wellFormed s -> wellFormed s1)) as (Hd1 & Ha1 & Hw1).
    { apply Hread; [|done]. destruct (cmdComplete s0); auto. }
    cbn [andThen].
    destruct (interpret s1) as [s2|s2|] eqn:Hi; [| |done].
    + apply interpret_detector in Hi as (Hd2 & Ha2 & _ & Hw2).
      cbn [andThen]. rewrite clearCommand_returns. cbn.
      intros [= <-]. unfold sameDetector, wellFormed in *. cbn.
      rewrite length_insert.
      split_and!; try tauto; try congruence; destruct Hd1, Hd2; congruence.
    + destruct (interpret_total s1) as (o & Ho' & [-> | [s3 ->]]);
        congruence.
  - cbn [andThen]. intros H. apply Hread; [|done].
    destruct (cmdComplete s0); auto.
Qed.

(** After [doCommand] has returned the buffer holds the empty text, the
    index is 0 and no line is complete. *)
Lemma doCommand_clears (s s' : State) :
  wellFormed s -> doCommand s = Returned s' ->
  peek (command s') 0 = Some NUL /\ inCount s' = 0 /\
  cmdComplete s' = false /\ wellFormed s'.
Proof.
  intros Hwf Hdo.
  assert (wellFormed s') as Hwf'.
  { eapply doCommand_detector; [|exact Hwf]. by rewrite Hdo. }
  split_and!; try done;
    unfold doCommand in Hdo;
    destruct (if cmdComplete _ then _ else _) as [s1|s1|]; try done;
    cbn [andThen] in Hdo;
    destruct (interpret s1) as [s2|s2|]; try done;
    cbn [andThen] in Hdo; apply clearCommand_effect in Hdo; subst s'; try done.
  unfold wellFormed in Hwf'. cbn in *. rewrite length_insert in Hwf'.
  unfold peek. cbn. destruct (command s2); [done|reflexivity].
Qed.

(** [doCommand] on a state that holds no partial line, with a whole line
    pending: the line is read, then interpreted, then cleared. *)
Lemma doCommand_line (line : list ascii) (t : ascii) (rest : list ascii)
    (s : State) :
  wellFormed s -> inCount s = 0 -> cmdComplete s = false ->
  serialIn s = line ++ t :: rest ->
  Forall (fun c => isTerminator c = false) line ->
  isTerminator t = true ->
  doCommand s =
    andThen
      (interpret
         (afterLine (fitting 0 line) rest (emit [Serial_print_str ">"] s)))
      clearCommand.
Proof.
  intros Hwf Hk Hcc Hrx Hline Ht. unfold doCommand.
  cbn [cmdComplete serialIn emit]. rewrite Hcc, Hrx.
  rewrite readLine_line; try done.
  - cbn [inCount emit]. by rewrite Hk.
  - cbn [inCount emit]. rewrite Hk. by vm_compute.
Qed.

Lemma interpret_unrecognized (c : ascii) (s : State) :
  peek (command s) 0 = Some c -> isCommandLetter c = false ->
  interpret s = Returned s.
Proof.
  intros Hpeek Hc. unfold interpret. rewrite Hpeek.
  unfold isCommandLetter in Hc.
  destruct (Ascii.eqb c "D"); [done|].
  destruct (Ascii.eqb c "T"); [done|].
  by destruct (Ascii.eqb c "S").
Qed.

Lemma interpret_returns (s : State) :
  is_Some (peek (command s) 0) ->
  (peek (command s) 0 = Some "S"%char ->
   is_Some (parseLevels (command s))) ->
  exists s', interpret s = Returned s'.
Proof.
  intros [c Hc] HS. unfold interpret. rewrite Hc.
  destruct (Ascii.eqb c "D"); [by eexists|].
  destruct (Ascii.eqb c "T"); [by eexists|].
  destruct (Ascii.eqb c "S") eqn:HcS; [|by eexists].
  apply Ascii.eqb_eq in HcS. subst c.
  destruct (HS Hc) as [[[buf lo] hi] Hparse].
  rewrite setTriggerLevels_parse, Hparse. cbn. by eexists.
Qed.

(** With a whole line pending [doCommand] returns, and with the buffer
    cleared, unless the line starts with S and [setTriggerLevels] leaves the
    array on it. *)
Lemma doCommand_returns (line : list ascii) (t : ascii) (rest : list ascii)
    (s : State) :
  wellFormed s -> inCount s = 0 -> cmdComplete s = false ->
  serialIn s = line ++ t :: rest ->
  Forall (fun c => isTerminator c = false) line ->
  isTerminator t = true ->
  (head line = Some "S"%char -> is_Some (parseLevels (lineBuffer line s))) ->
  exists s',
    doCommand s = Returned s' /\
    peek (command s') 0 = Some NUL /\ inCount s' = 0 /\
    cmdComplete s' = false.
Proof.
  intros Hwf Hk Hcc Hrx Hline Ht HS.
  pose proof (doCommand_line line t rest s Hwf Hk Hcc Hrx Hline Ht) as Hdo.
  destruct (interpret_returns
              (afterLine (fitting 0 line) rest
                 (emit [Serial_print_str ">"] s))) as [s2 Hs2].
  - unfold afterLine. cbn [command inCount emit]. rewrite Hk.
    change (fitting 0 line) with (take 79 line).
    destruct line as [|c line]; by eexists.
  - unfold afterLine. cbn [command inCount emit]. rewrite Hk.
    change (fitting 0 line) with (take 79 line).
    intros Hpeek. apply HS.
    destruct line as [|c line]; [discriminate Hpeek|exact Hpeek].
  - rewrite Hs2 in Hdo. cbn [andThen] in Hdo.
    rewrite clearCommand_returns in Hdo.
    eexists. split; [exact Hdo|].
    by destruct (doCommand_clears s _ Hwf Hdo) as (? & ? & ? & _).
Qed.

(** C6.  Reading and clearing the command line.  In a state whose buffer
    has its declared size:
    - a byte other than a line end is stored at the index, counted and
      echoed while the index is below the bound minus one;
    - with the index at the bound minus one such a byte changes nothing: it
      is not stored, not echoed, and reading goes on;
    - a line end completes the line wherever the index stands, writing the
      terminator at the index;
    - so a whole line leaves its first 79 characters in the buffer, echoed,
      and the rest dropped;
    - whenever [doCommand] returns, the buffer holds the empty text (its
      first cell is the terminator), the index is 0 and no line is complete;
      and with a whole line pending it does return, unless the line starts
      with S and [setTriggerLevels] leaves the array on it;
    - a first character other than D, T and S makes the dispatch do nothing,
      and [doCommand] on such a line changes only the buffer, the index and
      the pending input, and sends only the prompt, the echo and the new
      line. *)
Theorem command_line_handling (s : State) :
  wellFormed s ->
  (forall c rest,
     isTerminator c = false -> 0 <= inCount s < MAX_CMD_LEN - 1 ->
     readLine (c :: rest) s =
       readLine rest
         (emit [Serial_print_char c]
            (set_inCount (inCount s + 1)
               (set_command (<[Z.to_nat (inCount s) := c]> (command s)) s)))) /\
  (forall c rest,
     isTerminator c = false -> inCount s = MAX_CMD_LEN - 1 ->
     readLine (c :: rest) s = readLine rest s) /\
  (forall t rest,
     isTerminator t = true -> 0 <= inCount s < MAX_CMD_LEN ->
     readLine (t :: rest) s =
       Returned
         (set_serialIn rest
            (set_cmdComplete true
               (emit [Serial_println]
                  (set_command (<[Z.to_nat (inCount s) := NUL]> (command s))
                     s))))) /\
  (forall line t rest,
     inCount s = 0 ->
     Forall (fun c => isTerminator c = false) line ->
     isTerminator t = true ->
     readLine (line ++ t :: rest) s =
       Returned (afterLine (take 79 line) rest s)) /\
  (forall s',
     doCommand s = Returned s' ->
     peek (command s') 0 = Some NUL /\ inCount s' = 0 /\
     cmdComplete s' = false) /\
  (forall line t rest,
     inCount s = 0 -> cmdComplete s = false ->
     serialIn s = line ++ t :: rest ->
     Forall (fun c => isTerminator c = false) line ->
     isTerminator t = true ->
     (head line = Some "S"%char ->
      is_Some (parseLevels (lineBuffer line s))) ->
     exists s',
       doCommand s = Returned s' /\
       peek (command s') 0 = Some NUL /\ inCount s' = 0 /\
       cmdComplete s' = false) /\
  (forall c,
     peek (command s) 0 = Some c -> isCommandLetter c = false ->
     interpret s = Returned s) /\
  (forall line t rest,
     inCount s = 0 -> cmdComplete s = false ->
     serialIn s = line ++ t :: rest ->
     Forall (fun c => isTerminator c = false) line ->
     isTerminator t = true ->
     (forall c, head line = Some c -> isCommandLetter c = false) ->
     doCommand s =
       Returned
         (mkState
            (<[0%nat := NUL]>
               (take 79 line ++
                  NUL :: drop (length (take 79 line) + 1) (command s)))
            0 false (mode s) (dataOutput s)
            (triggerLevelLow s) (triggerLevelHigh s)
            (triggerState s) (counter s) (eeprom s) rest
            ((trace s ++ [Serial_print_str ">"]) ++
               (Serial_print_char <$> take 79 line) ++ [Serial_println])
            (adcReads s))).
Proof.
  intros Hwf. split_and!.
  - intros c rest Hc Hk. by apply readLine_accept.
  - intros c rest Hc Hk. apply readLine_drop; [done|lia].
  - intros t rest Ht Hk. by apply readLine_end.
  - intros line t rest Hk Hline Ht.
    rewrite readLine_line; try done.
    + by rewrite Hk.
    + rewrite Hk. by vm_compute.
  - intros s' Hdo. by destruct (doCommand_clears s s' Hwf Hdo) as (? & ? & ? & _).
  - intros line t rest Hk Hcc Hrx Hline Ht HS.
    by apply (doCommand_returns line t rest).
  - intros c. apply interpret_unrecognized.
  - intros line t rest Hk Hcc Hrx Hline Ht Hhead.
    rewrite (doCommand_line line t rest) by done.
    change (fitting 0 line) with (take 79 line).
    assert (exists c, peek (command (afterLine (take 79 line) rest
                                       (emit [Serial_print_str ">"] s))) 0
                      = Some c /\ isCommandLetter c = false) as (c & Hpeek & Hc).
    { unfold afterLine. cbn [command inCount emit]. rewrite Hk.
      destruct line as [|c line]; cbn.
      - by exists NUL.
      - exists c. split; [done|]. by apply Hhead. }
    rewrite (interpret_unrecognized c) by done.
    cbn [andThen]. rewrite clearCommand_returns.
    unfold afterLine. cbn. by rewrite Hk.
Qed.

(** X8.  The lines that start with D or T: the device goes to data mode,
    with raw output for D and trigger output for T; levels, EEPROM and
    detector are as before, the buffer is cleared, and only the prompt, the
    echo and a new line are sent.  Whatever follows the letter on the line
    is ignored. *)
Lemma doCommand_data_command (c : ascii) (line : list ascii) (t : ascii)
    (rest : list ascii) (s : State) :
  wellFormed s -> inCount s = 0 -> cmdComplete s = false ->
  serialIn s = c :: line ++ t :: rest ->
  c = "D"%char \/ c = "T"%char ->
  Forall (fun x => isTerminator x = false) line ->
  isTerminator t = true ->
  doCommand s =
    Returned
      (mkState
         (<[0%nat := NUL]>
            (take 79 (c :: line) ++
               NUL :: drop (length (take 79 (c :: line)) + 1) (command s)))
         0 false "D"%char (if Ascii.eqb c "D" then "R"%char else "T"%char)
         (triggerLevelLow s) (triggerLevelHigh s)
         (triggerState s) (counter s) (eeprom s) rest
         ((trace s ++ [Serial_print_str ">"]) ++
            (Serial_print_char <$> take 79 (c :: line)) ++ [Serial_println])
         (adcReads s)).
Proof.
  intros Hwf Hk Hcc Hrx Hc Hline Ht.
  rewrite (doCommand_line (c :: line) t rest); try done.
  2: { constructor; [by destruct Hc as [-> | ->]|done]. }
  change (fitting 0 (c :: line)) with (take 79 (c :: line)).
  unfold interpret, afterLine. cbn [command inCount emit]. rewrite Hk.
  destruct Hc as [-> | ->]; reflexivity.
Qed.

Lemma parseLevels_range (buf buf' : list ascii) (lo hi : Z) :
  parseLevels buf = Some (buf', lo, hi) ->
  (INT_MIN <= lo <= INT_MAX) /\ (INT_MIN <= hi <= INT_MAX).
Proof.
  unfold parseLevels. intros H.
  destruct (cutToken buf 1) as [[[buf1 p] q]|]; [cbn in H|done].
  destruct (cutToken buf1 (S q)) as [[[buf2 p'] q']|]; [cbn in H|done].
  injection H as _ <- <-. split; apply atoi_range.
Qed.

Hypothesis slots : disjointSlots lowSlot highSlot.

(** An [S] line that fits the buffer and that [setTriggerLevels] parses to
    [lo] and [hi], whatever the buffer holds behind the line. *)
Lemma doCommand_S (line : list ascii) (lo hi : Z) (t : ascii)
    (rest : list ascii) (s : State) :
  wellFormed s -> inCount s = 0 -> cmdComplete s = false ->
  Forall (fun c => isTerminator c = false) line ->
  isTerminator t = true ->
  (length line <= 78)%nat ->
  (forall tail, exists buf',
     parseLevels ("S"%char :: line ++ NUL :: tail) = Some (buf', lo, hi)) ->
  setsLevels lowSlot highSlot ("S"%char :: line) lo hi t rest s.
Proof.
  intros Hwf Hk Hcc Hline Ht Hlen Hparse. unfold setsLevels.
  rewrite (doCommand_line ("S"%char :: line) t rest); try done.
  2: { constructor; [by vm_compute|done]. }
  assert (fitting 0 ("S"%char :: line) = "S"%char :: line) as ->.
  { unfold fitting. apply take_ge. cbn. vm_compute Z.to_nat. lia. }
  unfold interpret.
  assert (command (afterLine ("S"%char :: line) rest
                     (emit [Serial_print_str ">"] (set_serialIn
                        (("S"%char :: line) ++ t :: rest) s)))
          = "S"%char :: line ++ NUL ::
              drop (S (length line) + 1) (command s)) as Hcmd.
  { unfold afterLine. cbn. by rewrite Hk. }
  rewrite Hcmd. cbn [peek andb Z.leb Z.ltb Z.compare MAX_CMD_LEN Z.to_nat
                     lookup list_lookup].
  change (Ascii.eqb "S" "D") with false.
  change (Ascii.eqb "S" "T") with false.
  change (Ascii.eqb "S" "S") with true. cbn match.
  rewrite setTriggerLevels_parse, Hcmd.
  destruct (Hparse (drop (S (length line) + 1) (command s))) as (buf' & ->).
  pose proof (Hparse []) as (b0 & Hb0).
  apply parseLevels_range in Hb0 as [Hlo Hhi].
  assert (disjointSlots highSlot lowSlot) as Hrev.
  { unfold disjointSlots in *. lia. }
  cbn. eexists. split; [reflexivity|]. cbn.
  rewrite (eeprom_read_write_other highSlot lowSlot) by exact Hrev.
  rewrite !eeprom_read_write_word by apply to_uint16_range.
  rewrite !to_int16_to_uint16 by done.
  split_and!; try done.
  rewrite <- !app_assoc. cbn. do 2 f_equal.
  rewrite <- !app_assoc. reflexivity.
Qed.

(** C5.  The S command.  In a state that holds no partial line, whatever the
    buffer contains from earlier commands, and with either line end:
    the line [S 85 90] sets the levels to 85 and 90, in the variables and in
    the EEPROM; the line with three spaces before each number does the
    same, leaving the same EEPROM content; the line [S abc 90] sets the low
    level to 0 and the high level to 90, and the device sends nothing but
    the prompt, the echo, a new line and the confirmation of 0 and 90. *)
Theorem set_levels_command (t : ascii) (rest : list ascii) (s : State) :
  wellFormed s -> inCount s = 0 -> cmdComplete s = false ->
  isTerminator t = true ->
  setsLevels lowSlot highSlot (txt "S 85 90") 85 90 t rest s /\
  setsLevels lowSlot highSlot (txt "S   85   90") 85 90 t rest s /\
  setsLevels lowSlot highSlot (txt "S abc 90") 0 90 t rest s.
Proof.
  intros Hwf Hk Hcc Ht.
  split_and!; apply doCommand_S; try done;
    try (cbn; lia);
    try (repeat constructor);
    intros tail; eexists; vm_compute; reflexivity.
Qed.

End CommandFacts.

(** ** The main loop *)

Section LoopFacts.

Variable N : Z.                  (* pulsesToSkip *)
Variables lowSlot highSlot : Z.
Variable analogIn : nat -> Z.

Local Abbreviation doCommand := (doCommand lowSlot highSlot).
Local Abbreviation measure := (measure N analogIn).
Local Abbreviation loop := (loop N lowSlot highSlot analogIn).

(** The detector never looks at the pending input. *)
Lemma detectTrigger_serialIn (val : Z) (rx : list ascii) (s : State) :
  detectTrigger N val (set_serialIn rx s) =
    set_serialIn rx (detectTrigger N val s).
Proof.
  unfold detectTrigger. cbn.
  repeat (match goal with |- context [if ?b then _ else _] => destruct b end;
          cbn); reflexivity.
Qed.

(** The detector leaves the serial line's state and the settings alone. *)
Lemma detectTrigger_settings (val : Z) (s : State) :
  let s' := detectTrigger N val s in
  sameSettings s s' /\ command s' = command s /\ inCount s' = inCount s /\
  cmdComplete s' = cmdComplete s /\ serialIn s' = serialIn s.
Proof.
  unfold detectTrigger, sameSettings. cbn.
  repeat (match goal with |- context [if ?b then _ else _] => destruct b end;
          cbn); done.
Qed.

Lemma measure_serialIn (rx : list ascii) (s : State) :
  measure (set_serialIn rx s) = set_serialIn rx (measure s).
Proof.
  unfold measure. cbn.
  destruct (Ascii.eqb (dataOutput s) "R"); [reflexivity|].
  destruct (Ascii.eqb (dataOutput s) "T"); [|reflexivity].
  apply (detectTrigger_serialIn _ rx (set_adcReads _ s)).
Qed.

Lemma measure_settings (s : State) :
  let s' := measure s in
  mode s' = mode s /\ dataOutput s' = dataOutput s /\
  triggerLevelLow s' = triggerLevelLow s /\
  triggerLevelHigh s' = triggerLevelHigh s /\ eeprom s' = eeprom s /\
  command s' = command s /\ inCount s' = inCount s /\
  cmdComplete s' = cmdComplete s /\ serialIn s' = serialIn s /\
  adcReads s' = S (adcReads s).
Proof.
  unfold measure. cbn.
  destruct (Ascii.eqb (dataOutput s) "R"); [done|].
  destruct (Ascii.eqb (dataOutput s) "T"); [|done].
  pose proof (detectTrigger_settings (analogIn (adcReads s))
                (set_adcReads (S (adcReads s)) s)) as H.
  cbn in H. unfold sameSettings in H. cbn in H. tauto.
Qed.

(** C7.  Leaving data mode.  In data mode with the letter C pending, one
    run of [loop] reads that byte and sets the mode to command; nothing else
    changes, so no analog read is made and nothing is sent, and the
    detector's trigger state and counter are as before.  [doCommand] never
    touches the detector's trigger state and counter nor makes an analog
    read, whether it returns or keeps waiting, so they survive any stay in
    command mode and the D and T commands: a run of [loop] in command mode
    that stays in command mode leaves them as they were, and one that goes
    back to data mode hands them unchanged to the measurement of that same
    run. *)
Theorem mode_switch_keeps_detector (s : State) :
  (forall rest,
     mode s = "D"%char -> serialIn s = "C"%char :: rest ->
     loop s = Returned (set_mode "C" (set_serialIn rest s)) /\
     adcReads (set_mode "C" (set_serialIn rest s)) = adcReads s /\
     trace (set_mode "C" (set_serialIn rest s)) = trace s /\
     sameDetector s (set_mode "C" (set_serialIn rest s))) /\
  (forall s',
     stateOf (doCommand s) = Some s' ->
     sameDetector s s' /\ adcReads s' = adcReads s) /\
  (forall s',
     mode s = "C"%char -> stateOf (loop s) = Some s' ->
     mode s' = "C"%char ->
     sameDetector s s' /\ adcReads s' = adcReads s) /\
  (forall s',
     mode s = "C"%char -> loop s = Returned s' -> mode s' = "D"%char ->
     exists s1,
       doCommand s = Returned s1 /\ mode s1 = "D"%char /\
       sameDetector s s1 /\ adcReads s1 = adcReads s /\
       s' = measure s1).
Proof.
  split_and!.
  - intros rest Hm Hrx. unfold loop, pollHost.
    rewrite Hm, Hrx. cbn. done.
  - intros s' H.
    by destruct (doCommand_detector lowSlot highSlot s s' H) as (? & ? & _).
  - intros s' Hm Hloop Hm'. unfold loop in Hloop.
    rewrite Hm in Hloop. cbn [Ascii.eqb Bool.eqb] in Hloop.
    destruct (doCommand s) as [s1|s1|] eqn:Hdo; cbn in Hloop; [| |done].
    + destruct (doCommand_detector lowSlot highSlot s s1) as (Hd & Ha & _);
        [by rewrite Hdo|].
      destruct (Ascii.eqb (mode s1) "D") eqn:Hm1.
      * injection Hloop as <-.
        destruct (measure_settings s1) as (Hmm & _).
        apply Ascii.eqb_eq in Hm1. congruence.
      * by injection Hloop as <-.
    + injection Hloop as <-.
      destruct (doCommand_detector lowSlot highSlot s s1) as (Hd & Ha & _);
        [by rewrite Hdo|done].
  - intros s' Hm Hloop Hm'. unfold loop in Hloop.
    rewrite Hm in Hloop. cbn [Ascii.eqb Bool.eqb] in Hloop.
    destruct (doCommand s) as [s1|s1|] eqn:Hdo; cbn in Hloop; [|done|done].
    destruct (doCommand_detector lowSlot highSlot s s1) as (Hd & Ha & _);
      [by rewrite Hdo|].
    exists s1. destruct (Ascii.eqb (mode s1) "D") eqn:Hm1.
    + injection Hloop as <-. apply Ascii.eqb_eq in Hm1. done.
    + injection Hloop as <-. apply Ascii.eqb_neq in Hm1. done.
Qed.

(** C10.  Bytes other than C in data mode.  In data mode with a byte other
    than C pending, one run of [loop] takes that one byte off the pending
    input and otherwise does exactly what it does with no byte pending: the
    measurement.  So the byte is not echoed (the trace is that of the run
    without it), it is not stored in the command buffer, and the mode, the
    output mode, the levels, the EEPROM and the detector are what the run
    without it gives.  No run of [loop] in data mode reads more than one
    pending byte. *)
Theorem data_mode_discards_bytes (b : ascii) (rest : list ascii) (s : State) :
  mode s = "D"%char -> serialIn s = b :: rest -> b <> "C"%char ->
  (exists s1 s2,
     loop s = Returned s1 /\
     loop (set_serialIn [] s) = Returned s2 /\
     s1 = set_serialIn rest s2 /\
     serialIn s1 = rest /\ trace s1 = trace s2 /\
     command s1 = command s /\ inCount s1 = inCount s /\
     cmdComplete s1 = cmdComplete s /\
     mode s1 = "D"%char /\ dataOutput s1 = dataOutput s /\
     triggerLevelLow s1 = triggerLevelLow s /\
     triggerLevelHigh s1 = triggerLevelHigh s /\
     eeprom s1 = eeprom s /\
     triggerState s1 = triggerState s2 /\ counter s1 = counter s2) /\
  (forall s0,
     mode s0 = "D"%char ->
     exists s0', loop s0 = Returned s0' /\
                 serialIn s0' = drop 1 (serialIn s0)).
Proof.
  intros Hm Hrx Hb. apply Ascii.eqb_neq in Hb. split.
  - exists (measure (set_serialIn rest s)), (measure (set_serialIn [] s)).
    assert (loop s = Returned (measure (set_serialIn rest s))) as Hloop.
    { unfold loop, pollHost. rewrite Hm, Hrx. cbn. rewrite Hb.
      cbn. by rewrite Hm. }
    assert (loop (set_serialIn [] s)
            = Returned (measure (set_serialIn [] s))) as Hloop0.
    { unfold loop, pollHost. cbn. rewrite Hm. cbn. by rewrite Hm. }
    rewrite !measure_serialIn.
    destruct (measure_settings s) as (? & ? & ? & ? & ? & ? & ? & ? & ? & ?).
    rewrite measure_serialIn in Hloop, Hloop0.
    split_and!; try done; cbn; congruence.
  - intros s0 Hm0. unfold loop, pollHost. rewrite Hm0. cbn.
    destruct (serialIn s0) as [|c rx] eqn:Hrx0; cbn.
    + rewrite Hm0. cbn. eexists. split; [reflexivity|].
      destruct (measure_settings s0) as (_&_&_&_&_&_&_&_& Hs &_).
      by rewrite Hs.
    + destruct (Ascii.eqb c "C"); cbn.
      * eexists. split; [reflexivity|]. done.
      * rewrite Hm0. cbn. eexists. split; [reflexivity|].
        rewrite measure_serialIn. cbn. by rewrite drop_0.
Qed.

End LoopFacts.

(** ** Every state the device reaches is ready for a command *)

Section Reachable.

Variable N : Z.
Variables lowSlot highSlot : Z.
Variable analogIn : nat -> Z.

Lemma boot_ready (e : gmap Z Z) (rx : list ascii) : ready (boot e rx).
Proof. by vm_compute. Qed.

Lemma setup_ready (s : State) : ready s -> ready (setup lowSlot highSlot s).
Proof. by unfold ready, wellFormed. Qed.

Lemma loop_ready (s s' : State) :
  ready s -> loop N lowSlot highSlot analogIn s = Returned s' -> ready s'.
Proof.
  intros (Hwf & Hk & Hcc). unfold loop.
  assert (forall s1, ready s1 ->
          ready (if Ascii.eqb (mode s1) "D"
                 then measure N analogIn s1 else s1)) as Hm.
  { intros s1 Hr. destruct (Ascii.eqb (mode s1) "D"); [|done].
    destruct (measure_settings N analogIn s1)
      as (_ & _ & _ & _ & _ & Hc & Hi & Hcm & _).
    unfold ready, wellFormed in *. by rewrite Hc, Hi, Hcm. }
  destruct (Ascii.eqb (mode s) "C").
  - destruct (doCommand lowSlot highSlot s) as [s1|s1|] eqn:Hdo; try done.
    cbn. intros [= <-]. apply Hm.
    destruct (doCommand_clears lowSlot highSlot s s1 Hwf Hdo)
      as (_ & ? & ? & ?). done.
  - destruct (Ascii.eqb (mode s) "D"); cbn; intros [= <-]; apply Hm; [|done].
    unfold pollHost. destruct (serialIn s) as [|c rx]; [done|].
    by destruct (Ascii.eqb c "C").
Qed.

Lemma iterate_ready (n : nat) (s s' : State) :
  ready s -> iterate N lowSlot highSlot analogIn n s = Returned s' -> ready s'.
Proof.
  revert s. induction n as [|n IH]; intros s Hr; cbn [iterate].
  - by intros [= <-].
  - destruct (loop N lowSlot highSlot analogIn s) as [s1|s1|] eqn:Hl; try done.
    cbn. apply IH. by apply (loop_ready s s1).
Qed.

End Reachable.

(** ** The model at work *)

(** With the levels inverted (low 100, high 50) a sample of 75 is above the
    high level and below the low one: the detector goes active. *)
Example inverted_levels_sample_between :
  triggerState
    (detectTrigger pulsesToSkip_default 75
       (set_triggerLevelHigh 50 (set_triggerLevelLow 100 (boot ∅ []))))
  = true.
Proof. reflexivity. Qed.

(** Two pulses skipped with [pulsesToSkip = 2]: the counter stands at 2 and
    nothing was sent. *)
Example two_pulses_skipped :
  let s := feed 2 [120; 50; 120; 50] scenarioStart in
  counter s = 2 /\ trace s = [] /\ triggerState s = false.
Proof. by vm_compute. Qed.

(** The host sends C, then [S 85 90], then T: three runs of [loop] leave
    the device in data mode with the new levels, and the third run has
    already taken a measurement. *)
Example session_C_S_T :
  exists s,
    iterate pulsesToSkip_default 0 4 (fun _ => 512) 3
      (setup 0 4
         (boot ∅ (txt "C" ++ txt "S 85 90" ++ [LF] ++ txt "T" ++ [CR])))
      = Returned s /\
    mode s = "D"%char /\ dataOutput s = "T"%char /\
    triggerLevelLow s = 85 /\ triggerLevelHigh s = 90 /\
    triggerState s = true /\ counter s = 1 /\ adcReads s = 1%nat /\
    serialIn s = [].
Proof. eexists. split; [by vm_compute|]. by vm_compute. Qed.

(** An [S] line without its second number reads on behind the terminator,
    into what an earlier line left in the buffer: here the high level
    becomes 77. *)
Example missing_number_reads_old_bytes :
  exists s,
    iterate pulsesToSkip_default 0 4 (fun _ => 512) 2
      (set_mode "C"
         (boot ∅ (txt "XXXXX77" ++ [LF] ++ txt "S 85" ++ [LF])))
      = Returned s /\
    triggerLevelLow s = 85 /\ triggerLevelHigh s = 77.
Proof. eexists. split; [by vm_compute|]. by vm_compute. Qed.

(** After a line of 79 characters, the line [S] makes [setTriggerLevels] run
    past the end of the array. *)
Example S_after_full_line_leaves_the_array :
  iterate pulsesToSkip_default 0 4 (fun _ => 512) 2
    (set_mode "C"
       (boot ∅ (replicate 79 "x"%char ++ [LF] ++ txt "S" ++ [LF])))
  = Undefined.
Proof. by vm_compute. Qed.

(** Without a line end the call keeps waiting. *)
Example no_line_end_keeps_waiting :
  exists s,
    doCommand 0 4 (boot ∅ (txt "S 85 90")) = Waiting s /\
    triggerLevelLow s = 0 /\ inCount s = 7.
Proof. eexists. split; [by vm_compute|]. by vm_compute. Qed.

(** ** The theorems at concrete inputs *)

(** Decimation on the scenario: after 50, 120, 50 one pulse has begun and
    the light is off; the sample 120 begins the second pulse and is
    reported. *)
Lemma detectTrigger_decimation_witness :
  (0 <= 1 < INT_MAX) /\ fresh scenarioStart /\
  (let s := feed 1 [50; 120; 50] scenarioStart in
   let s' := detectTrigger 1 120 s in
   let on := lightOn 80 100 [50; 120; 50] in
   let k := Z.of_nat (pulsesBegun 80 100 [50; 120; 50]) in
   on = false /\ k = 1 /\
   triggerState s = on /\
   counter s = k mod (1 + 1) /\
   trace s = trace scenarioStart /\
   trace s' = trace s ++ risingReport).
Proof.
  split; [by vm_compute|]. split; [by vm_compute|].
  destruct (detectTrigger_decimation
              1 ltac:(by vm_compute) scenarioStart [50; 120; 50] 120
              ltac:(by vm_compute))
    as (_ & Ht & _ & Hc & Hquiet & Hrise & _).
  cbn zeta. split_and!.
  - reflexivity.
  - reflexivity.
  - exact Ht.
  - exact Hc.
  - apply Hquiet. by vm_compute.
  - apply Hrise. by vm_compute.
Defined.

(** The counter on the scenario: after 50, 120, 50, 120 the sample 50 is a
    reported falling edge and resets the counter. *)
Lemma counter_reset_only_on_report_witness :
  (0 <= 1 < INT_MAX) /\ fresh scenarioStart /\
  counter (feed 1 [50; 120; 50; 120] scenarioStart) = 2 /\
  counter (detectTrigger 1 50 (feed 1 [50; 120; 50; 120] scenarioStart)) = 0 /\
  counter (detectTrigger 1 50 (feed 1 [50; 120; 50; 120] scenarioStart))
    = pulsesSinceReport 1 ([50; 120; 50; 120] ++ [50]) scenarioStart 0 /\
  feed 1 (pulses 1 120 50) scenarioStart = set_counter 1 scenarioStart.
Proof.
  assert (0 <= 1 < INT_MAX) as HN by (by vm_compute).
  assert (fresh scenarioStart) as Hf by (by vm_compute).
  pose proof (counter_reset_only_on_report 1 HN scenarioStart
                [50; 120; 50; 120] 50 Hf) as (_ & Hreset & _ & _ & Hcount & Hacc).
  split; [exact HN|]. split; [exact Hf|]. split_and!.
  - by vm_compute.
  - apply Hreset. by vm_compute.
  - exact Hcount.
  - apply (Hacc 1%nat 120 50); by vm_compute.
Defined.

Lemma scenario_trace_witness :
  fresh scenarioStart /\
  triggerLevelLow scenarioStart = 80 /\ triggerLevelHigh scenarioStart = 100 /\
  trace (feed 1 [50; 120; 50] scenarioStart) = [] /\
  trace (feed 1 [50; 120; 50; 120] scenarioStart)
    = [Serial_println_int 0; digitalWrite ledOutPin HIGH] /\
  trace (feed 1 [50; 120; 50; 120; 50] scenarioStart)
    = [Serial_println_int 0; digitalWrite ledOutPin HIGH;
       Serial_println_int 1; digitalWrite ledOutPin LOW] /\
  trace (feed 1 [50; 120; 50; 120; 50; 120] scenarioStart)
    = [Serial_println_int 0; digitalWrite ledOutPin HIGH;
       Serial_println_int 1; digitalWrite ledOutPin LOW].
Proof.
  assert (fresh scenarioStart) as Hf by (by vm_compute).
  pose proof (scenario_trace scenarioStart Hf eq_refl eq_refl)
    as (_ & _ & H3 & H4 & H5 & H6).
  split_and!; [exact Hf|reflexivity|reflexivity|exact H3|exact H4|exact H5|
               exact H6].
Defined.

(** The S command on a device fresh from reset, with the slots at 0 and 4. *)
Lemma set_levels_command_witness :
  disjointSlots 0 4 /\ wellFormed (boot ∅ []) /\
  inCount (boot ∅ []) = 0 /\ cmdComplete (boot ∅ []) = false /\
  isTerminator LF = true /\
  setsLevels 0 4 (txt "S 85 90") 85 90 LF [] (boot ∅ []) /\
  setsLevels 0 4 (txt "S   85   90") 85 90 LF [] (boot ∅ []) /\
  setsLevels 0 4 (txt "S abc 90") 0 90 LF [] (boot ∅ []).
Proof.
  assert (disjointSlots 0 4) as Hs by (left; lia).
  destruct (set_levels_command 0 4 Hs LF [] (boot ∅ [])
              eq_refl eq_refl eq_refl eq_refl) as (H1 & H2 & H3).
  split; [exact Hs|]. do 4 (split; [reflexivity|]).
  split; [exact H1|]. split; [exact H2|exact H3].
Defined.

(** A line of 100 characters on a device fresh from reset: 79 are kept. *)
Lemma command_line_handling_witness :
  wellFormed (boot ∅ []) /\
  readLine (replicate 100 "x"%char ++ LF :: txt "T") (boot ∅ []) =
    Returned (afterLine (replicate 79 "x"%char) (txt "T") (boot ∅ [])) /\
  interpret 0 4 (boot ∅ []) = Returned (boot ∅ []).
Proof.
  assert (wellFormed (boot ∅ [])) as Hwf by reflexivity.
  pose proof (command_line_handling 0 4 (boot ∅ []) Hwf)
    as (_ & _ & _ & Hline & _ & _ & Hother & _).
  split; [exact Hwf|]. split.
  - apply (Hline (replicate 100 "x"%char) LF (txt "T")).
    + reflexivity.
    + by apply Forall_replicate.
    + reflexivity.
  - apply (Hother NUL); reflexivity.
Defined.

Lemma calibration_round_trip_witness :
  disjointSlots 0 4 /\
  (INT_MIN <= 85 <= INT_MAX) /\ (INT_MIN <= 90 <= INT_MAX) /\
  (let s' := readTriggerLevels 0 4
               (set_eeprom
                  (eeprom_write_word 4 (to_uint16 90)
                     (eeprom_write_word 0 (to_uint16 85) (eeprom (boot ∅ []))))
                  (boot ∅ [])) in
   triggerLevelLow s' = 85 /\ triggerLevelHigh s' = 90).
Proof.
  assert (disjointSlots 0 4) as Hs by (left; lia).
  assert (INT_MIN <= 85 <= INT_MAX) as H85 by (by vm_compute).
  assert (INT_MIN <= 90 <= INT_MAX) as H90 by (by vm_compute).
  split; [exact Hs|]. split; [exact H85|]. split; [exact H90|].
  exact (proj1 (calibration_round_trip 0 4 Hs 85 90 (boot ∅ []) H85 H90)).
Defined.

(** The letter T sent in data mode: the run takes the byte and measures, as
    it would without it. *)
Lemma data_mode_discards_bytes_witness :
  mode (boot ∅ (txt "T")) = "D"%char /\
  serialIn (boot ∅ (txt "T")) = "T"%char :: [] /\
  (exists s1 s2,
     loop 49 0 4 (fun _ => 512) (boot ∅ (txt "T")) = Returned s1 /\
     loop 49 0 4 (fun _ => 512) (set_serialIn [] (boot ∅ (txt "T")))
       = Returned s2 /\
     s1 = set_serialIn [] s2 /\ trace s1 = trace s2 /\
     command s1 = command (boot ∅ (txt "T")) /\ mode s1 = "D"%char).
Proof.
  split; [reflexivity|]. split; [reflexivity|].
  destruct (data_mode_discards_bytes 49 0 4 (fun _ => 512) "T" []
              (boot ∅ (txt "T")) eq_refl eq_refl ltac:(discriminate))
    as [(s1 & s2 & H1 & H2 & H3 & _ & H5 & H6 & _ & _ & H9 & _) _].
  exists s1, s2. split_and!; assumption.
Defined.

(** ** More on the detector *)

Section DetectorRuns.

Variable N : Z.    (* pulsesToSkip *)

(** X4.  The detector is a latch: while it is active, samples that are not
    below the low level leave the whole state as it is, however far above
    the high level they are; while it is inactive, samples that are not
    above the high level do the same. *)
Theorem detectTrigger_latch (samples : list Z) (s : State) :
  (triggerState s = true ->
   Forall (fun v => triggerLevelLow s <= v) samples ->
   feed N samples s = s) /\
  (triggerState s = false ->
   Forall (fun v => v <= triggerLevelHigh s) samples ->
   feed N samples s = s).
Proof.
  split; intros Ht Hall.
  - induction Hall as [|v vs Hv _ IH]; [reflexivity|].
    rewrite feed_cons.
    assert (detectTrigger N v s = s) as ->; [|exact IH].
    apply detectTrigger_idle. rewrite detectTrigger_state, Ht.
    destruct (Z.gtb_spec v (triggerLevelHigh s)); [done|].
    destruct (Z.ltb_spec v (triggerLevelLow s)); [lia|done].
  - induction Hall as [|v vs Hv _ IH]; [reflexivity|].
    rewrite feed_cons.
    assert (detectTrigger N v s = s) as ->; [|exact IH].
    apply detectTrigger_idle. rewrite detectTrigger_state, Ht.
    destruct (Z.gtb_spec v (triggerLevelHigh s)); [lia|].
    destruct (Z.ltb_spec v (triggerLevelLow s)); done.
Qed.

Hypothesis N_range : 0 <= N < INT_MAX.

(** X1.  Decimation over a run.  Of the rising edges that a fresh detector
    sees in any run of samples, every [(N + 1)]-th one is reported: the
    number of lines 0 sent is the number of rising edges divided by
    [N + 1], rounded down. *)
Theorem decimation_over_run (samples : list Z) (s : State) :
  fresh s ->
  Z.of_nat (countPrintln 0 (trace (feed N samples s))) =
    Z.of_nat (countPrintln 0 (trace s)) +
    Z.of_nat (countRising N samples s) / (N + 1).
Proof.
  intros Hf.
  rewrite (reports_every_Nth N N_range samples s)
    by (by apply counting_fresh).
  destruct Hf as [_ ->]. by rewrite Z.mod_0_l by lia.
Qed.

Lemma ledLevel_app (t u : list Event) (level : bool) :
  ledLevel (t ++ u) level = ledLevel u (ledLevel t level).
Proof.
  revert level. induction t as [|ev t IH]; intros level; [reflexivity|].
  destruct ev; cbn; apply IH.
Qed.

Lemma alternation_step (val : Z) (s : State) :
  counting N s ->
  let s' := detectTrigger N val s in
  (countPrintln 0 (trace s') + (if onReportedPulse N s then 1 else 0)
   = countPrintln 0 (trace s) + countPrintln 1 (trace s')
     - countPrintln 1 (trace s) + (if onReportedPulse N s' then 1 else 0))%nat /\
  (countPrintln 0 (trace s) <= countPrintln 0 (trace s'))%nat /\
  (countPrintln 1 (trace s) <= countPrintln 1 (trace s'))%nat /\
  (forall level,
     ledLevel (trace s) level = onReportedPulse N s ->
     ledLevel (trace s') level = onReportedPulse N s').
Proof.
  intros Hs. pose proof Hs as (Hc & Hoff & Hon). cbn zeta.
  unfold onReportedPulse.
  destruct (detectTrigger_counted N N_range val s Hs)
    as [-> | [(Ht & _ & Hn & ->) | [(Ht & _ & Hn & ->) |
       [(Ht & _ & _ & Hn & ->) | (Ht & _ & _ & Hn & ->)]]]];
    cbn [trace counter triggerState emit set_counter set_triggerState];
    rewrite ?Ht; cbn [andb]; rewrite ?countPrintln_app, ?ledLevel_app;
    cbn [countPrintln risingReport fallingReport Z.eqb Pos.eqb ledLevel].
  - split_and!; [clear; lia|clear; lia|clear; lia|done].
  - destruct (Z.ltb_spec N (counter s + 1)); [exfalso; lia|].
    split_and!; [clear; lia|clear; lia|clear; lia|done].
  - destruct (Z.ltb_spec N (counter s + 1)); [|exfalso; lia].
    split_and!; [clear; lia|clear; lia|clear; lia|]. intros level _. by rewrite ledLevel_app.
  - destruct (Z.ltb_spec N (counter s)); [exfalso; lia|].
    split_and!; [clear; lia|clear; lia|clear; lia|done].
  - destruct (Z.ltb_spec N (counter s)); [|exfalso; lia].
    split_and!; [clear; lia|clear; lia|clear; lia|]. intros level _. by rewrite ledLevel_app.
Qed.

(** X2.  Reports alternate and the LED follows them.  In any run from a
    fresh detector the number of lines 0 sent exceeds the number of lines 1
    sent by one while the detector is on a pulse whose rising edge was
    reported, and the two numbers are equal otherwise; and if the LED was
    off before the run, it is on after it exactly in the first case. *)
Theorem reports_alternate (samples : list Z) (s : State) :
  fresh s ->
  let s' := feed N samples s in
  (countPrintln 0 (trace s') - countPrintln 0 (trace s)
   = countPrintln 1 (trace s') - countPrintln 1 (trace s)
     + (if onReportedPulse N s' then 1 else 0))%nat /\
  (forall level,
     ledLevel (trace s) level = false ->
     ledLevel (trace s') level = onReportedPulse N s').
Proof.
  intros Hf. cbn zeta.
  assert (onReportedPulse N s = false) as Hoff.
  { unfold onReportedPulse. by rewrite (proj1 Hf). }
  pose proof (counting_fresh N N_range s Hf) as Hs.
  assert (forall samples s0, counting N s0 ->
    (countPrintln 0 (trace s0) <= countPrintln 0 (trace (feed N samples s0)) /\
     countPrintln 1 (trace s0) <= countPrintln 1 (trace (feed N samples s0)) /\
     countPrintln 0 (trace (feed N samples s0))
       + (if onReportedPulse N s0 then 1 else 0)
     = countPrintln 0 (trace s0) + countPrintln 1 (trace (feed N samples s0))
       - countPrintln 1 (trace s0)
       + (if onReportedPulse N (feed N samples s0) then 1 else 0))%nat /\
    (forall level,
       ledLevel (trace s0) level = onReportedPulse N s0 ->
       ledLevel (trace (feed N samples s0)) level
         = onReportedPulse N (feed N samples s0))) as Hrun.
  { clear -N_range. intros samples.
    induction samples as [|v vs IH]; intros s0 Hs0.
    - cbn. split_and!; [lia|lia|lia|done].
    - rewrite !feed_cons.
      destruct (alternation_step v s0 Hs0) as (Hcnt & Hmono0 & Hmono & Hled).
      destruct (IH _ (counting_step N N_range v s0 Hs0))
        as ((IH0 & IH1 & IHcnt) & IHled).
      destruct (onReportedPulse N s0),
        (onReportedPulse N (detectTrigger N v s0)),
        (onReportedPulse N (feed N vs (detectTrigger N v s0)));
        split_and!; try lia; intros level Hl; apply IHled, Hled, Hl. }
  destruct (Hrun samples s Hs) as ((H0 & H1 & Hcnt) & Hled).
  rewrite Hoff in Hcnt, Hled. split; [lia|exact Hled].
Qed.

Lemma pulses_add (a b : nat) (hiV loV : Z) :
  pulses (a + b) hiV loV = pulses a hiV loV ++ pulses b hiV loV.
Proof. unfold pulses. by rewrite replicate_add, concat_app. Qed.

(** One full cycle of [N + 1] pulses from a state with the counter at 0. *)
Lemma cycle_once (hiV loV : Z) (s : State) :
  fresh s ->
  triggerLevelHigh s < hiV ->
  loV <= triggerLevelHigh s -> loV < triggerLevelLow s ->
  feed N (pulses (S (Z.to_nat N)) hiV loV) s
    = emit (risingReport ++ fallingReport) s.
Proof.
  intros [Ht Hc] Hhi Hlo1 Hlo2.
  replace (S (Z.to_nat N)) with (Z.to_nat N + 1)%nat by lia.
  rewrite pulses_add, feed_app.
  rewrite (pulses_accumulate N N_range (Z.to_nat N) hiV loV s)
    by (auto; lia).
  change (pulses 1 hiV loV) with [hiV; loV].
  rewrite (pulse_reported N N_range) by (cbn; auto; lia).
  destruct s as [cmd ic cc m dout lo hi ts c e rx tr n]. cbn in *. subst.
  unfold set_counter, emit. cbn. by rewrite <- app_assoc.
Qed.

(** X3.  A train of pulses is divided by [N + 1].  From a fresh detector,
    [m] times [N + 1] clean pulses (each a sample above the high level, then
    one below the low level) send [m] pairs of reports, a line 0 followed by
    a line 1 with the LED switched on and off, and leave everything else,
    the counter at 0 included, as it was. *)
Theorem pulse_train_divided (m : nat) (hiV loV : Z) (s : State) :
  fresh s ->
  triggerLevelHigh s < hiV ->
  loV <= triggerLevelHigh s -> loV < triggerLevelLow s ->
  feed N (pulses (m * S (Z.to_nat N)) hiV loV) s
    = emit (concat (replicate m (risingReport ++ fallingReport))) s.
Proof.
  intros Hf Hhi Hlo1 Hlo2. revert s Hf Hhi Hlo1 Hlo2.
  induction m as [|m IH]; intros s Hf Hhi Hlo1 Hlo2.
  - cbn. destruct s; unfold emit; cbn. by rewrite app_nil_r.
  - cbn [Nat.mul]. rewrite pulses_add, feed_app, cycle_once by done.
    rewrite IH by done.
    destruct s; unfold emit; cbn. by rewrite <- !app_assoc.
Qed.

End DetectorRuns.

(** ** More on the S command *)

(** Both sides are the same list up to the bracketing of [++]. *)
Ltac same_list :=
  repeat first [progress rewrite <- app_assoc | progress cbn [app]];
  reflexivity.

Lemma skipSpaces_run (k : nat) (c : ascii) (rest : list ascii) (p : nat) :
  Ascii.eqb c SPACE = false ->
  skipSpaces (replicate k SPACE ++ c :: rest) p = Some (p + k)%nat.
Proof.
  intros Hc. revert p. induction k as [|k IH]; intros p; cbn.
  - rewrite Hc, andb_false_r. f_equal. lia.
  - rewrite IH. f_equal. lia.
Qed.

Lemma isTokenChar_true (c : ascii) :
  isTokenChar c = true ->
  Ascii.eqb c NUL = false /\ Ascii.eqb c SPACE = false /\
  isTerminator c = false.
Proof.
  unfold isTokenChar.
  destruct (Ascii.eqb c NUL), (Ascii.eqb c SPACE), (isTerminator c); done.
Qed.

Lemma skipToken_run (tok : list ascii) (d : ascii) (rest : list ascii)
    (q : nat) :
  Forall (fun c => isTokenChar c = true) tok ->
  d = NUL \/ d = SPACE ->
  skipToken (tok ++ d :: rest) q = Some (q + length tok)%nat.
Proof.
  intros Htok Hd. revert q.
  induction Htok as [|c tok Hc _ IH]; intros q; cbn.
  - destruct Hd as [-> | ->]; cbn; f_equal; lia.
  - apply isTokenChar_true in Hc as (-> & -> & _). cbn.
    rewrite IH. f_equal. lia.
Qed.

(** One cut of [setTriggerLevels] on a buffer of known shape: [pre] up to
    the start, [k] spaces, a character [c] that is no space, the token
    characters [tok], then a terminator or space [d]. *)
Lemma cutToken_at (pre : list ascii) (k : nat) (c : ascii)
    (tok : list ascii) (d : ascii) (rest : list ascii) :
  Ascii.eqb c SPACE = false ->
  Forall (fun x => isTokenChar x = true) tok ->
  d = NUL \/ d = SPACE ->
  (length pre + k + 1 + length tok < 80)%nat ->
  cutToken (pre ++ replicate k SPACE ++ c :: tok ++ d :: rest) (length pre)
    = Some (pre ++ replicate k SPACE ++ c :: tok ++ NUL :: rest,
            (length pre + k)%nat, (length pre + k + 1 + length tok)%nat).
Proof.
  intros Hc Htok Hd Hlen. unfold cutToken.
  rewrite drop_app_length, skipSpaces_run by done. cbn.
  assert (pre ++ replicate k SPACE ++ c :: tok ++ d :: rest
          = (pre ++ replicate k SPACE ++ [c]) ++ tok ++ d :: rest) as Hsplit.
  { same_list. }
  rewrite Hsplit at 1.
  rewrite drop_app_length'
    by (rewrite !length_app, length_replicate; cbn; lia).
  rewrite skipToken_run by done. cbn.
  rewrite poke_inside by (unfold MAX_CMD_LEN; lia). cbn.
  rewrite Nat2Z.id. do 2 f_equal; [|lia].
  f_equal.
  assert (pre ++ replicate k SPACE ++ c :: tok ++ d :: rest
          = (pre ++ replicate k SPACE ++ c :: tok) ++ d :: rest) as ->.
  { same_list. }
  replace (S (length pre + k + length tok))
    with (length (pre ++ replicate k SPACE ++ c :: tok) + 0)%nat
    by (rewrite !length_app, length_replicate; cbn; lia).
  rewrite insert_app_r. cbn [insert list_insert]. same_list.
Qed.

Lemma digits_value_app_NUL (l rest : list ascii) (acc : Z) :
  digits_value (l ++ NUL :: rest) acc = digits_value l acc.
Proof.
  revert acc. induction l as [|c l IH]; intros acc; [reflexivity|].
  cbn. destruct (isdigit c); [apply IH|reflexivity].
Qed.

(** [atoi] reads no further than the terminator. *)
Lemma atoi_app_NUL (tok rest : list ascii) :
  atoi (tok ++ NUL :: rest) = atoi tok.
Proof.
  unfold atoi. induction tok as [|c tok IH]; [reflexivity|].
  cbn [app skip_isspace]. destruct (isspace c); [exact IH|].
  destruct (Ascii.eqb c "-"); [by rewrite digits_value_app_NUL|].
  destruct (Ascii.eqb c "+"); [by rewrite digits_value_app_NUL|].
  exact (f_equal to_int16 (digits_value_app_NUL (c :: tok) rest 0)).
Qed.

(** The two cuts on a line with both numbers, whatever follows the line's
    terminator. *)
Lemma parseLevels_two_tokens (k1 k2 : nat) (c1 c2 : ascii)
    (tok1 tok2 tail : list ascii) :
  isTokenChar c1 = true -> isTokenChar c2 = true ->
  Forall (fun x => isTokenChar x = true) tok1 ->
  Forall (fun x => isTokenChar x = true) tok2 ->
  (1 + k1 + 1 + length tok1 + 1 + k2 + 1 + length tok2 < 80)%nat ->
  exists buf',
    parseLevels
      ("S"%char :: (replicate k1 SPACE ++ c1 :: tok1 ++
                     SPACE :: replicate k2 SPACE ++ c2 :: tok2) ++
         NUL :: tail)
    = Some (buf', atoi (c1 :: tok1), atoi (c2 :: tok2)).
Proof.
  intros Hc1 Hc2 Ht1 Ht2 Hlen. unfold parseLevels.
  apply isTokenChar_true in Hc1 as (_ & Hc1 & _).
  apply isTokenChar_true in Hc2 as (_ & Hc2 & _).
  assert ("S"%char :: (replicate k1 SPACE ++ c1 :: tok1 ++
                     SPACE :: replicate k2 SPACE ++ c2 :: tok2) ++
            NUL :: tail
          = ["S"%char] ++ replicate k1 SPACE ++ c1 :: tok1 ++
              SPACE :: (replicate k2 SPACE ++ c2 :: tok2 ++ NUL :: tail)) as ->.
  { same_list. }
  rewrite (cutToken_at ["S"%char] k1 c1 tok1 SPACE) by (auto; cbn; lia).
  cbn [mbind option_bind length].
  assert (["S"%char] ++ replicate k1 SPACE ++ c1 :: tok1 ++
            NUL :: replicate k2 SPACE ++ c2 :: tok2 ++ NUL :: tail
          = (["S"%char] ++ replicate k1 SPACE ++ c1 :: tok1 ++ [NUL]) ++
              replicate k2 SPACE ++ c2 :: tok2 ++ NUL :: tail) as Hbuf.
  { same_list. }
  assert (S (1 + k1 + 1 + length tok1)
          = length (["S"%char] ++ replicate k1 SPACE ++ c1 :: tok1 ++ [NUL]))
    as Hstart.
  { rewrite !length_app, length_replicate. cbn. rewrite length_app. cbn. lia. }
  eexists. rewrite Hstart. rewrite Hbuf at 1.
  rewrite (cutToken_at _ k2 c2 tok2 NUL)
    by (auto; rewrite <- Hstart; lia).
  cbn [mbind option_bind]. f_equal. f_equal.
  - f_equal.
    replace (1 + k1)%nat
      with (length (["S"%char] ++ replicate k1 SPACE))
      by (rewrite length_app, length_replicate; cbn; lia).
    rewrite app_assoc, drop_app_length.
    apply (atoi_app_NUL (c1 :: tok1)).
  - replace (length (["S"%char] ++ replicate k1 SPACE ++ c1 :: tok1 ++ [NUL])
             + k2)%nat
      with (length ((["S"%char] ++ replicate k1 SPACE ++ c1 :: tok1 ++ [NUL])
                    ++ replicate k2 SPACE))
      by (rewrite (length_app _ (replicate k2 SPACE)), length_replicate; lia).
    rewrite (app_assoc _ (replicate k2 SPACE)), drop_app_length.
    apply (atoi_app_NUL (c2 :: tok2)).
Qed.

Section SLines.

Variables lowSlot highSlot : Z.
Hypothesis slots : disjointSlots lowSlot highSlot.

(** X5.  The S command in general.  Take a line made of the letter S, any
    number of spaces (none is enough), a first token, a space, any number
    of further spaces and a second token, 79 characters at most, where a
    token is a non-empty run of characters other than space, terminator and
    line end.  In a state that holds no partial line [doCommand] returns
    on it; the levels, in the variables and in the EEPROM, are what [atoi]
    makes of the two tokens; the mode is as before; the device answers with
    the prompt, the echo, a new line and the confirmation; and none of this
    depends on what earlier lines left in the buffer. *)
Theorem S_line_sets_levels (k1 k2 : nat) (c1 c2 : ascii)
    (tok1 tok2 : list ascii) (t : ascii) (rest : list ascii) (s : State) :
  ready s -> isTerminator t = true ->
  isTokenChar c1 = true -> isTokenChar c2 = true ->
  Forall (fun x => isTokenChar x = true) tok1 ->
  Forall (fun x => isTokenChar x = true) tok2 ->
  (1 + k1 + 1 + length tok1 + 1 + k2 + 1 + length tok2 <= 79)%nat ->
  setsLevels lowSlot highSlot
    ("S"%char :: replicate k1 SPACE ++ c1 :: tok1 ++
       SPACE :: replicate k2 SPACE ++ c2 :: tok2)
    (atoi (c1 :: tok1)) (atoi (c2 :: tok2)) t rest s.
Proof.
  intros (Hwf & Hk & Hcc) Ht Hc1 Hc2 Ht1 Ht2 Hlen.
  apply doCommand_S; try done.
  - apply Forall_app. split; [by apply Forall_replicate|].
    constructor; [by apply isTokenChar_true in Hc1 as (_ & _ & ?)|].
    apply Forall_app. split.
    { eapply Forall_impl; [exact Ht1|].
      intros x Hx. by apply isTokenChar_true in Hx as (_ & _ & ?). }
    constructor; [done|].
    apply Forall_app. split; [by apply Forall_replicate|].
    constructor; [by apply isTokenChar_true in Hc2 as (_ & _ & ?)|].
    eapply Forall_impl; [exact Ht2|].
    intros x Hx. by apply isTokenChar_true in Hx as (_ & _ & ?).
  - repeat first [rewrite length_app | rewrite length_replicate
                  | progress cbn [length]].
    lia.
  - intros tail. apply parseLevels_two_tokens; try done. lia.
Qed.

(** As [doCommand_S], with the parse known only for the cells that stand
    behind the line in this state. *)
Lemma doCommand_S_at (line buf' : list ascii) (lo hi : Z) (t : ascii)
    (rest : list ascii) (s : State) :
  wellFormed s -> inCount s = 0 -> cmdComplete s = false ->
  Forall (fun c => isTerminator c = false) line ->
  isTerminator t = true ->
  (length line <= 78)%nat ->
  parseLevels ("S"%char :: line ++ NUL ::
                 drop (S (length line) + 1) (command s))
    = Some (buf', lo, hi) ->
  setsLevels lowSlot highSlot ("S"%char :: line) lo hi t rest s.
Proof.
  intros Hwf Hk Hcc Hline Ht Hlen Hparse. unfold setsLevels.
  rewrite (doCommand_line lowSlot highSlot ("S"%char :: line) t rest);
    try done.
  2: { constructor; [by vm_compute|done]. }
  assert (fitting 0 ("S"%char :: line) = "S"%char :: line) as ->.
  { unfold fitting. apply take_ge. cbn. vm_compute Z.to_nat. lia. }
  unfold interpret.
  assert (command (afterLine ("S"%char :: line) rest
                     (emit [Serial_print_str ">"] (set_serialIn
                        (("S"%char :: line) ++ t :: rest) s)))
          = "S"%char :: line ++ NUL ::
              drop (S (length line) + 1) (command s)) as Hcmd.
  { unfold afterLine. cbn. by rewrite Hk. }
  rewrite Hcmd. cbn [peek andb Z.leb Z.ltb Z.compare MAX_CMD_LEN Z.to_nat
                     lookup list_lookup].
  change (Ascii.eqb "S" "D") with false.
  change (Ascii.eqb "S" "T") with false.
  change (Ascii.eqb "S" "S") with true. cbn match.
  rewrite setTriggerLevels_parse, Hcmd, Hparse.
  apply parseLevels_range in Hparse as [Hlo Hhi].
  assert (disjointSlots highSlot lowSlot) as Hrev.
  { unfold disjointSlots in *. lia. }
  cbn. eexists. split; [reflexivity|]. cbn.
  rewrite (eeprom_read_write_other highSlot lowSlot) by exact Hrev.
  rewrite !eeprom_read_write_word by apply to_uint16_range.
  rewrite !to_int16_to_uint16 by done.
  split_and!; try done.
  rewrite <- !app_assoc. cbn. do 2 f_equal.
  rewrite <- !app_assoc. reflexivity.
Qed.

(** X6.  An S line without its second number.  Take a line made of the
    letter S, any number of spaces and one token, in a state that holds no
    partial line.  If the buffer cell right behind the place of the line's
    terminator holds the terminator too, and the cell after that one a
    terminator or a space, then [doCommand] returns, the low level is what
    [atoi] makes of the token and the high level is 0, in the variables and
    in the EEPROM, and the confirmation is all the host is told. *)
Theorem S_line_without_second_number (k1 : nat) (c1 d : ascii)
    (tok1 tail : list ascii) (t : ascii) (rest : list ascii) (s : State) :
  ready s -> isTerminator t = true ->
  isTokenChar c1 = true ->
  Forall (fun x => isTokenChar x = true) tok1 ->
  (1 + k1 + 1 + length tok1 + 2 < 80)%nat ->
  d = NUL \/ d = SPACE ->
  drop (S (k1 + 1 + length tok1) + 1) (command s) = NUL :: d :: tail ->
  setsLevels lowSlot highSlot
    ("S"%char :: replicate k1 SPACE ++ c1 :: tok1)
    (atoi (c1 :: tok1)) 0 t rest s.
Proof.
  intros (Hwf & Hk & Hcc) Ht Hc1 Ht1 Hlen Hd Hdrop.
  pose proof (isTokenChar_true c1 Hc1) as (_ & Hc1s & Hc1t).
  assert (length (replicate k1 SPACE ++ c1 :: tok1)
          = (k1 + 1 + length tok1)%nat) as Hll.
  { rewrite length_app, length_replicate. cbn. lia. }
  eapply doCommand_S_at; try done.
  - apply Forall_app. split; [by apply Forall_replicate|].
    constructor; [done|]. eapply Forall_impl; [exact Ht1|].
    intros x Hx. by apply isTokenChar_true in Hx as (_ & _ & ?).
  - rewrite Hll. lia.
  - rewrite Hll, Hdrop. unfold parseLevels.
    assert ("S"%char :: (replicate k1 SPACE ++ c1 :: tok1) ++
              NUL :: NUL :: d :: tail
            = ["S"%char] ++ replicate k1 SPACE ++ c1 :: tok1 ++
                NUL :: (NUL :: d :: tail)) as -> by same_list.
    rewrite (cutToken_at ["S"%char] k1 c1 tok1 NUL) by (auto; cbn; lia).
    cbn [mbind option_bind length].
    assert (["S"%char] ++ replicate k1 SPACE ++ c1 :: tok1 ++
              NUL :: NUL :: d :: tail
            = (["S"%char] ++ replicate k1 SPACE ++ c1 :: tok1 ++ [NUL]) ++
                replicate 0 SPACE ++ NUL :: [] ++ d :: tail) as Hbuf
      by same_list.
    assert (S (1 + k1 + 1 + length tok1)
            = length (["S"%char] ++ replicate k1 SPACE ++ c1 :: tok1 ++ [NUL]))
      as Hstart.
    { rewrite !length_app, length_replicate. cbn. rewrite length_app. cbn.
      lia. }
    rewrite Hstart. rewrite Hbuf at 1.
    rewrite (cutToken_at _ 0 NUL [] d)
      by (auto; rewrite <- Hstart; cbn; lia).
    cbn [mbind option_bind]. f_equal. f_equal.
    + f_equal.
      replace (1 + k1)%nat
        with (length (["S"%char] ++ replicate k1 SPACE))
        by (rewrite length_app, length_replicate; cbn; lia).
      rewrite app_assoc, drop_app_length.
      apply (atoi_app_NUL (c1 :: tok1)).
    + rewrite Nat.add_0_r, drop_app_length. reflexivity.
Qed.

Lemma poke_cells (buf buf' : list ascii) (i : Z) (n : nat) :
  poke buf i NUL = Some buf' ->
  buf' !! n = buf !! n \/ buf' !! n = Some NUL.
Proof.
  unfold poke. destruct (_ && _); [|done]. intros [= <-].
  destruct (decide (Z.to_nat i = n)) as [<- | Hne].
  - destruct (decide (Z.to_nat i < length buf)%nat).
    + right. by apply list_lookup_insert_eq.
    + left. by rewrite list_insert_ge by lia.
  - left. by apply list_lookup_insert_ne.
Qed.

Lemma cutToken_cells (buf buf' : list ascii) (start p q n : nat) :
  cutToken buf start = Some (buf', p, q) ->
  buf' !! n = buf !! n \/ buf' !! n = Some NUL.
Proof.
  unfold cutToken. intros H.
  destruct (skipSpaces (drop start buf) start) as [p0|]; [cbn in H|done].
  destruct (skipToken (drop (S p0) buf) (S p0)) as [q0|]; [cbn in H|done].
  destruct (poke buf (Z.of_nat q0) NUL) as [b|] eqn:Hpoke; [cbn in H|done].
  injection H as <- _ _. by apply (poke_cells _ _ _ n) in Hpoke.
Qed.

(** X7.  What [setTriggerLevels] touches.  When it returns, the EEPROM
    differs from before in the two cells of each of the two words at most;
    the command buffer has its length and each of its cells holds what it
    held or the terminator; and nothing else has changed: the level
    variables still hold the old values, and nothing was sent. *)
Theorem setTriggerLevels_footprint (s s' : State) :
  setTriggerLevels lowSlot highSlot s = Some s' ->
  (forall a,
     a <> lowSlot -> a <> lowSlot + 1 -> a <> highSlot ->
     a <> highSlot + 1 -> eeprom s' !! a = eeprom s !! a) /\
  length (command s') = length (command s) /\
  (forall n,
     command s' !! n = command s !! n \/ command s' !! n = Some NUL) /\
  triggerLevelLow s' = triggerLevelLow s /\
  triggerLevelHigh s' = triggerLevelHigh s /\
  trace s' = trace s /\ mode s' = mode s /\
  dataOutput s' = dataOutput s /\ sameDetector s s' /\
  inCount s' = inCount s /\ cmdComplete s' = cmdComplete s /\
  serialIn s' = serialIn s /\ adcReads s' = adcReads s.
Proof.
  intros Hset. pose proof Hset as Hset'.
  rewrite setTriggerLevels_parse in Hset'.
  destruct (parseLevels (command s)) as [[[buf lo] hi]|] eqn:Hp; [|done].
  cbn in Hset'. injection Hset' as <-. cbn.
  split_and!; try done.
  - intros a H1 H2 H3 H4.
    unfold eeprom_write_word, eeprom_write_byte.
    by rewrite !lookup_insert_ne by done.
  - by apply parseLevels_length in Hp.
  - intros n. unfold parseLevels in Hp.
    destruct (cutToken (command s) 1) as [[[buf1 p] q]|] eqn:H1;
      [cbn in Hp|done].
    destruct (cutToken buf1 (S q)) as [[[buf2 p'] q']|] eqn:H2;
      [cbn in Hp|done].
    injection Hp as <- _ _.
    destruct (cutToken_cells _ _ _ _ _ n H2) as [-> | ->]; [|by right].
    apply (cutToken_cells _ _ _ _ _ n H1).
Qed.

End SLines.

(** ** Waiting for the line end *)

(** Bytes without a line end among them: what fits is stored and echoed,
    and the call keeps waiting. *)
Lemma readLine_partial (input : list ascii) (s : State) :
  wellFormed s -> 0 <= inCount s < MAX_CMD_LEN ->
  Forall (fun c => isTerminator c = false) input ->
  readLine input s = Waiting (partialLine (fitting (inCount s) input) s).
Proof.
  intros Hwf Hk Hin. revert s Hwf Hk.
  induction Hin as [|c input Hc _ IH]; intros s Hwf Hk.
  - cbn [readLine]. rewrite fitting_nil. f_equal.
    unfold partialLine, set_serialIn. cbn.
    rewrite Nat.add_0_r, take_drop, Z.add_0_r, app_nil_r. by destruct s.
  - destruct (Z.lt_ge_cases (inCount s) (MAX_CMD_LEN - 1)) as [Hroom|Hfull].
    + rewrite readLine_accept by (done || lia).
      rewrite IH.
      * rewrite fitting_cons_room by lia.
        unfold partialLine, emit, set_inCount, set_command. cbn.
        unfold wellFormed in Hwf.
        f_equal. f_equal.
        -- replace (Z.to_nat (inCount s + 1)) with (S (Z.to_nat (inCount s)))
             by lia.
           rewrite (take_S_r _ _ c).
           ++ rewrite take_insert_ge by lia.
              rewrite drop_insert_lt by lia.
              rewrite <- app_assoc. cbn. do 4 f_equal. lia.
           ++ apply list_lookup_insert_eq. rewrite Hwf. lia.
        -- lia.
        -- by rewrite <- app_assoc.
      * unfold wellFormed. cbn. rewrite length_insert. exact Hwf.
      * cbn. lia.
    + rewrite readLine_drop by (done || lia).
      rewrite IH by done. by rewrite !fitting_full by lia.
Qed.

Section Waiting.

Variables lowSlot highSlot : Z.

(** X9.  [doCommand] and the line end.  In a state that holds no partial
    line: if no line end is among the pending bytes, [doCommand] sends the
    prompt, stores and echoes the first 79 of the bytes, reads them all and
    then waits for ever, the levels, the EEPROM, the mode and the detector
    being as before; if a line end is among them, [doCommand] does not
    wait. *)
Theorem doCommand_waits_for_line_end (s : State) :
  ready s ->
  (Forall (fun c => isTerminator c = false) (serialIn s) ->
   doCommand lowSlot highSlot s =
     Waiting (partialLine (take 79 (serialIn s))
                (emit [Serial_print_str ">"] s))) /\
  (forall line t rest,
     serialIn s = line ++ t :: rest ->
     Forall (fun c => isTerminator c = false) line ->
     isTerminator t = true ->
     forall s', doCommand lowSlot highSlot s <> Waiting s').
Proof.
  intros (Hwf & Hk & Hcc). split.
  - intros Hin. unfold doCommand. cbn [cmdComplete serialIn emit].
    rewrite Hcc. rewrite readLine_partial; try done.
    + cbn [inCount emit]. by rewrite Hk.
    + cbn [inCount emit]. rewrite Hk. by vm_compute.
  - intros line t rest Hrx Hline Ht s'.
    rewrite (doCommand_line lowSlot highSlot line t rest) by done.
    destruct (interpret_total lowSlot highSlot
                (afterLine (fitting 0 line) rest
                   (emit [Serial_print_str ">"] s)))
      as (o & <- & [-> | [s2 ->]]); [done|].
    cbn [andThen]. by rewrite clearCommand_returns.
Qed.

End Waiting.

(** ** Every state the device reaches *)

Section ReachableStates.

Variable N : Z.                  (* pulsesToSkip *)
Variables lowSlot highSlot : Z.
Variable analogIn : nat -> Z.
Hypothesis N_range : 0 <= N < INT_MAX.

Lemma interpret_cases (s s' : State) :
  interpret lowSlot highSlot s = Returned s' ->
  s' = set_dataOutput "R" (set_mode "D" s) \/
  s' = set_dataOutput "T" (set_mode "D" s) \/
  (exists s1, setTriggerLevels lowSlot highSlot s = Some s1 /\
              s' = readTriggerLevels lowSlot highSlot s1) \/
  s' = s.
Proof.
  unfold interpret. destruct (peek (command s) 0) as [c|]; [|done].
  destruct (Ascii.eqb c "D"); [intros [= <-]; auto|].
  destruct (Ascii.eqb c "T"); [intros [= <-]; auto|].
  destruct (Ascii.eqb c "S"); [|intros [= <-]; auto].
  destruct (setTriggerLevels lowSlot highSlot s) as [s1|]; [|done].
  cbn. intros [= <-]. right. right. left. by exists s1.
Qed.

Lemma doCommand_inv (s s' : State) :
  reachableInv N lowSlot highSlot s ->
  doCommand lowSlot highSlot s = Returned s' ->
  reachableInv N lowSlot highSlot s'.
Proof.
  intros (Hr & Hm & Hd & Hmir & Hcnt) Hdo.
  pose proof Hr as (Hwf & _).
  destruct (doCommand_clears lowSlot highSlot s s' Hwf Hdo)
    as (_ & Hk' & Hcc' & Hwf').
  destruct (doCommand_detector lowSlot highSlot s s') as ([Hts Hc] & _);
    [by rewrite Hdo|].
  assert (counting N s') as Hcnt'.
  { unfold counting in *. by rewrite Hts, Hc. }
  unfold doCommand in Hdo.
  set (s0 := emit [Serial_print_str ">"] s) in *.
  destruct (if cmdComplete s0 then Returned s0
            else readLine (serialIn s0) s0) as [s1|s1|] eqn:Hread;
    [|done|done].
  assert (sameSettings s s1) as (Hm1 & Hd1 & Hl1 & Hh1 & He1 & _).
  { destruct (cmdComplete s0).
    - injection Hread as <-. by unfold sameSettings.
    - destruct (readLine_detector (serialIn s0) s0 s1) as (_ & Hs & _);
        [by rewrite Hread|exact Hs]. }
  cbn [andThen] in Hdo.
  destruct (interpret lowSlot highSlot s1) as [s2|s2|] eqn:Hint;
    [|done|done].
  cbn [andThen] in Hdo. apply clearCommand_effect in Hdo. subst s'.
  unfold reachableInv, ready, mirrored in *. cbn in *.
  destruct Hmir as [Hlo Hhi].
  destruct (interpret_cases s1 s2 Hint)
    as [-> | [-> | [(s1' & Hset & ->) | ->]]]; cbn.
  - split_and!; auto; congruence.
  - split_and!; auto; congruence.
  - apply setTriggerLevels_detector in Hset
      as (_ & _ & Hm2 & Hd2 & _).
    split_and!; auto; congruence.
  - split_and!; auto; congruence.
Qed.

Lemma measure_inv (s : State) :
  reachableInv N lowSlot highSlot s ->
  reachableInv N lowSlot highSlot (measure N analogIn s).
Proof.
  intros ((Hwf & Hk & Hcc) & Hm & Hd & [Hlo Hhi] & Hcnt).
  destruct (measure_settings N analogIn s)
    as (Hm' & Hd' & Hl' & Hh' & He' & Hc' & Hi' & Hcm' & _).
  unfold reachableInv, ready, wellFormed, mirrored.
  rewrite Hm', Hd', Hl', Hh', He', Hc', Hi', Hcm'.
  split_and!; try done.
  unfold measure. cbn.
  destruct (Ascii.eqb (dataOutput s) "R"); [exact Hcnt|].
  destruct (Ascii.eqb (dataOutput s) "T"); [|exact Hcnt].
  by apply counting_step.
Qed.

Lemma loop_inv (s s' : State) :
  reachableInv N lowSlot highSlot s ->
  loop N lowSlot highSlot analogIn s = Returned s' ->
  reachableInv N lowSlot highSlot s'.
Proof.
  intros Hinv. unfold loop.
  assert (forall s1, reachableInv N lowSlot highSlot s1 ->
          reachableInv N lowSlot highSlot
            (if Ascii.eqb (mode s1) "D" then measure N analogIn s1 else s1))
    as Hm.
  { intros s1 H1. destruct (Ascii.eqb (mode s1) "D"); [|done].
    by apply measure_inv. }
  destruct (Ascii.eqb (mode s) "C").
  - destruct (doCommand lowSlot highSlot s) as [s1|s1|] eqn:Hdo; try done.
    cbn. intros [= <-]. apply Hm. by apply (doCommand_inv s s1).
  - destruct (Ascii.eqb (mode s) "D"); cbn; intros [= <-]; apply Hm; [|done].
    unfold pollHost. destruct (serialIn s) as [|c rx]; [done|].
    destruct Hinv as ((Hwf & Hk & Hcc) & Hmd & Hd & Hmir & Hcnt).
    destruct (Ascii.eqb c "C"); unfold reachableInv, ready; cbn; auto 10.
Qed.

Lemma setup_inv (e : gmap Z Z) (rx : list ascii) :
  reachableInv N lowSlot highSlot (setup lowSlot highSlot (boot e rx)).
Proof.
  unfold reachableInv, ready, wellFormed, mirrored, counting. cbn.
  unfold INT_MAX in N_range. split_and!; auto; try done; lia.
Qed.

(** X10.  What every reached state satisfies.  After [setup] on the globals
    as initialised, whatever the EEPROM holds and the host sends, every
    state reached by [loop] runs that return has the buffer at its size,
    holds no partial and no complete line, has the mode among C and D and
    the output mode among R and T, has level variables equal to the two
    EEPROM words read as [int], and has the counter between 0 and
    [pulsesToSkip + 1], at most [pulsesToSkip] while the detector is
    inactive, so that the increment on a rising edge never wraps. *)
Theorem reachable_invariant (e : gmap Z Z) (rx : list ascii) (n : nat)
    (s' : State) :
  iterate N lowSlot highSlot analogIn n (setup lowSlot highSlot (boot e rx))
    = Returned s' ->
  reachableInv N lowSlot highSlot s' /\
  (triggerState s' = false -> to_int16 (counter s' + 1) = counter s' + 1).
Proof.
  intros Hrun.
  assert (reachableInv N lowSlot highSlot s') as Hinv.
  { pose proof (setup_inv e rx) as H0. revert Hrun H0.
    generalize (setup lowSlot highSlot (boot e rx)).
    induction n as [|n IH]; intros s Hrun Hs; cbn [iterate] in Hrun.
    - by injection Hrun as <-.
    - destruct (loop N lowSlot highSlot analogIn s) as [s1|s1|] eqn:Hl;
        try done.
      cbn in Hrun. apply (IH s1); [exact Hrun|]. by apply (loop_inv s s1). }
  split; [exact Hinv|].
  destruct Hinv as (_ & _ & _ & _ & (Hc & Hoff & _)).
  intros Ht. specialize (Hoff Ht). pose proof N_range as HN.
  apply to_int16_id. unfold INT_MIN, INT_MAX in *. lia.
Qed.

(** ** Runs of the main loop in data mode *)

Lemma detectTrigger_adcReads (val : Z) (k : nat) (s : State) :
  detectTrigger N val (set_adcReads k s) =
    set_adcReads k (detectTrigger N val s).
Proof.
  unfold detectTrigger. cbn.
  repeat (match goal with |- context [if ?b then _ else _] => destruct b end;
          cbn); reflexivity.
Qed.

Lemma feed_adcReads (samples : list Z) (k : nat) (s : State) :
  feed N samples (set_adcReads k s) = set_adcReads k (feed N samples s).
Proof.
  revert s. induction samples as [|v vs IH]; intros s; [reflexivity|].
  by rewrite !feed_cons, detectTrigger_adcReads, IH.
Qed.

Lemma feed_serialIn (samples : list Z) (rx : list ascii) (s : State) :
  feed N samples (set_serialIn rx s) = set_serialIn rx (feed N samples s).
Proof.
  revert s. induction samples as [|v vs IH]; intros s; [reflexivity|].
  by rewrite !feed_cons, detectTrigger_serialIn, IH.
Qed.

Lemma feed_settings (samples : list Z) (s : State) :
  mode (feed N samples s) = mode s /\
  dataOutput (feed N samples s) = dataOutput s /\
  serialIn (feed N samples s) = serialIn s /\
  adcReads (feed N samples s) = adcReads s.
Proof.
  revert s. induction samples as [|v vs IH]; intros s; [done|].
  rewrite feed_cons.
  destruct (IH (detectTrigger N v s)) as (-> & -> & -> & ->).
  destruct (detectTrigger_settings N v s)
    as ((? & ? & _ & _ & _ & ?) & _ & _ & _ & ?). done.
Qed.

Lemma setters_absorb (r0 r1 : list ascii) (k0 k1 : nat) (X : State) :
  set_serialIn r1 (set_adcReads k1 (set_serialIn r0 (set_adcReads k0 X)))
    = set_serialIn r1 (set_adcReads k1 X).
Proof. by destruct X. Qed.

Lemma emit_absorb (r0 r1 : list ascii) (k0 k1 : nat) (ev : Event)
    (evs : list Event) (X : State) :
  set_serialIn r1
    (set_adcReads k1
       (emit evs (set_serialIn r0 (emit [ev] (set_adcReads k0 X)))))
    = set_serialIn r1 (set_adcReads k1 (emit (ev :: evs) X)).
Proof.
  destruct X. cbv -[app]. by rewrite <- app_assoc.
Qed.

(** One run of [loop] in data mode with no C at the head of the pending
    bytes. *)
Lemma loop_data_step (s : State) :
  mode s = "D"%char ->
  Forall (fun b => b <> "C"%char) (take 1 (serialIn s)) ->
  loop N lowSlot highSlot analogIn s =
    Returned (set_serialIn (drop 1 (serialIn s)) (measure N analogIn s)).
Proof.
  intros Hm Hrx. unfold loop, pollHost. rewrite Hm. cbn.
  destruct (serialIn s) as [|b rx] eqn:Hs.
  - rewrite Hm. cbn. f_equal.
    destruct (measure_settings N analogIn s) as (_&_&_&_&_&_&_&_& Hsi &_).
    rewrite Hs in Hsi. destruct (measure N analogIn s); cbn in *.
    by subst.
  - cbn in Hrx. apply Forall_cons in Hrx as [Hb _].
    apply Ascii.eqb_neq in Hb. rewrite Hb. cbn. rewrite Hm. cbn.
    by rewrite measure_serialIn, drop_0.
Qed.

(** [n] runs of [loop] in trigger mode against the detector fed with the
    readings. *)
Lemma trigger_run (n : nat) (s : State) :
  mode s = "D"%char -> dataOutput s = "T"%char ->
  Forall (fun b => b <> "C"%char) (take n (serialIn s)) ->
  iterate N lowSlot highSlot analogIn n s =
    Returned
      (set_serialIn (drop n (serialIn s))
         (set_adcReads (adcReads s + n)
            (feed N (readings analogIn (adcReads s) n) s))).
Proof.
  revert s. induction n as [|n IH]; intros s Hm Hd Hrx.
  - cbn. f_equal. rewrite Nat.add_0_r. by destruct s.
  - cbn [iterate]. rewrite loop_data_step; [|done|].
    2: { destruct (serialIn s); [constructor|].
         cbn in *. apply Forall_cons in Hrx as [? _]. by constructor. }
    cbn [andThen].
    assert (measure N analogIn s
            = set_adcReads (S (adcReads s))
                (detectTrigger N (analogIn (adcReads s)) s)) as Hmeas.
    { unfold measure. cbn. rewrite Hd. cbn.
      apply detectTrigger_adcReads. }
    rewrite Hmeas.
    destruct (detectTrigger_settings N (analogIn (adcReads s)) s)
      as ((Hm1 & Hd1 & _) & _ & _ & _ & Hs1).
    set (s2 := set_serialIn (drop 1 (serialIn s))
                 (set_adcReads (S (adcReads s))
                    (detectTrigger N (analogIn (adcReads s)) s))).
    rewrite (IH s2).
    + change (serialIn s2) with (drop 1 (serialIn s)).
      change (adcReads s2) with (S (adcReads s)).
      subst s2. f_equal. unfold readings. cbn [seq fmap list_fmap].
      rewrite feed_cons, feed_serialIn, feed_adcReads.
      rewrite setters_absorb, drop_drop.
      by replace (S (adcReads s) + n)%nat with (adcReads s + S n)%nat by lia.
    + change (mode s2) with (mode (detectTrigger N (analogIn (adcReads s)) s)).
      by rewrite Hm1.
    + change (dataOutput s2)
        with (dataOutput (detectTrigger N (analogIn (adcReads s)) s)).
      by rewrite Hd1.
    + change (serialIn s2) with (drop 1 (serialIn s)).
      destruct (serialIn s) as [|b rx]; [by rewrite drop_nil, take_nil|].
      cbn in *. by apply Forall_cons in Hrx as [_ ?].
Qed.

(** X11.  A run in trigger mode is a run of the detector.  In data mode
    with trigger output, [n] runs of [loop] behave like the detector fed
    with the [n] next analog readings, one per run: the state after them is
    the state of that detector run, with [n] more analog reads counted and
    the first [n] pending bytes gone, provided none of these bytes is the
    letter C. *)
Theorem trigger_mode_run (n : nat) (s : State) :
  mode s = "D"%char -> dataOutput s = "T"%char ->
  Forall (fun b => b <> "C"%char) (take n (serialIn s)) ->
  iterate N lowSlot highSlot analogIn n s =
    Returned
      (set_serialIn (drop n (serialIn s))
         (set_adcReads (adcReads s + n)
            (feed N (readings analogIn (adcReads s) n) s))).
Proof. apply trigger_run. Qed.

(** X12.  A run in raw mode.  In data mode with raw output, [n] runs of
    [loop] send the [n] next analog readings, one line each and in their
    order, count [n] more analog reads and take the first [n] pending bytes
    away, provided none of them is the letter C; nothing else changes, the
    detector included. *)
Theorem raw_mode_run (n : nat) (s : State) :
  mode s = "D"%char -> dataOutput s = "R"%char ->
  Forall (fun b => b <> "C"%char) (take n (serialIn s)) ->
  iterate N lowSlot highSlot analogIn n s =
    Returned
      (set_serialIn (drop n (serialIn s))
         (set_adcReads (adcReads s + n)
            (emit (Serial_println_int <$> readings analogIn (adcReads s) n)
               s))).
Proof.
  revert s. induction n as [|n IH]; intros s Hm Hd Hrx.
  - cbn. f_equal. rewrite Nat.add_0_r.
    destruct s; unfold emit; cbn. by rewrite app_nil_r.
  - cbn [iterate]. rewrite loop_data_step; [|done|].
    2: { destruct (serialIn s); [constructor|].
         cbn in *. apply Forall_cons in Hrx as [? _]. by constructor. }
    cbn [andThen].
    assert (measure N analogIn s
            = emit [Serial_println_int (analogIn (adcReads s))]
                (set_adcReads (S (adcReads s)) s)) as Hmeas.
    { unfold measure. cbn. by rewrite Hd. }
    rewrite Hmeas.
    set (s2 := set_serialIn (drop 1 (serialIn s))
                 (emit [Serial_println_int (analogIn (adcReads s))]
                    (set_adcReads (S (adcReads s)) s))).
    rewrite (IH s2).
    + change (serialIn s2) with (drop 1 (serialIn s)).
      change (adcReads s2) with (S (adcReads s)).
      subst s2. f_equal. unfold readings. cbn [seq fmap list_fmap].
      rewrite emit_absorb, drop_drop.
      by replace (S (adcReads s) + n)%nat with (adcReads s + S n)%nat by lia.
    + exact Hm.
    + exact Hd.
    + change (serialIn s2) with (drop 1 (serialIn s)).
      destruct (serialIn s) as [|b rx]; [by rewrite drop_nil, take_nil|].
      cbn in *. by apply Forall_cons in Hrx as [_ ?].
Qed.

(** X13.  From power-on.  On the globals as initialised, with nothing sent
    by the host, [setup] opens the serial port, makes the two pins outputs,
    reads the two levels from the EEPROM, sends them once and pulls the
    IR pin low; it leaves the device in data mode with trigger output and
    the detector inactive with its counter at 0.  The [n] runs of [loop]
    that follow are the detector fed with the first [n] analog readings:
    the device reports pulses from the start, with no command needed. *)
Theorem power_on_run (e : gmap Z Z) (n : nat) :
  let s0 := setup lowSlot highSlot (boot e []) in
  trace s0 =
    [Serial_begin 9600; pinMode_OUTPUT irOutPin; pinMode_OUTPUT ledOutPin;
     Serial_print_str "Trigger levels: ";
     Serial_print_int (to_int16 (eeprom_read_word lowSlot e));
     Serial_print_str " ";
     Serial_println_int (to_int16 (eeprom_read_word highSlot e));
     digitalWrite irOutPin LOW] /\
  triggerLevelLow s0 = to_int16 (eeprom_read_word lowSlot e) /\
  triggerLevelHigh s0 = to_int16 (eeprom_read_word highSlot e) /\
  mode s0 = "D"%char /\ dataOutput s0 = "T"%char /\ fresh s0 /\
  eeprom s0 = e /\
  iterate N lowSlot highSlot analogIn n s0 =
    Returned (set_adcReads n (feed N (readings analogIn 0 n) s0)).
Proof.
  cbn zeta. split_and!; try done.
  rewrite trigger_run; try done.
  - f_equal. cbn [serialIn adcReads setup boot emit readTriggerLevels
                  set_triggerLevelLow set_triggerLevelHigh].
    rewrite drop_nil.
    destruct (feed_settings
                (readings analogIn 0 n) (setup lowSlot highSlot (boot e [])))
      as (_ & _ & Hrx & _).
    destruct (feed N _ _); cbn in *. by subst.
  - cbn. rewrite take_nil. constructor.
Qed.

(** X14.  Nothing but an S line changes the calibration.  In a state that
    holds no partial line, [doCommand] on a line that does not start with S
    returns with the two level variables and the EEPROM as they were, and
    so it does while it waits for a line end that does not come; and a run
    of [loop] in data mode leaves them as they were too, whatever is
    pending and whatever is measured. *)
Theorem calibration_changes_only_by_S (s : State) :
  ready s ->
  (forall line t rest,
     serialIn s = line ++ t :: rest ->
     Forall (fun c => isTerminator c = false) line ->
     isTerminator t = true ->
     head line <> Some "S"%char ->
     exists s',
       doCommand lowSlot highSlot s = Returned s' /\
       eeprom s' = eeprom s /\
       triggerLevelLow s' = triggerLevelLow s /\
       triggerLevelHigh s' = triggerLevelHigh s) /\
  (Forall (fun c => isTerminator c = false) (serialIn s) ->
   exists s',
     doCommand lowSlot highSlot s = Waiting s' /\
     eeprom s' = eeprom s /\
     triggerLevelLow s' = triggerLevelLow s /\
     triggerLevelHigh s' = triggerLevelHigh s) /\
  (mode s = "D"%char ->
   exists s',
     loop N lowSlot highSlot analogIn s = Returned s' /\
     eeprom s' = eeprom s /\
     triggerLevelLow s' = triggerLevelLow s /\
     triggerLevelHigh s' = triggerLevelHigh s).
Proof.
  intros (Hwf & Hk & Hcc). split_and!.
  - intros line t rest Hrx Hline Ht Hhead.
    rewrite (doCommand_line lowSlot highSlot line t rest) by done.
    change (fitting 0 line) with (take 79 line).
    set (sL := afterLine (take 79 line) rest (emit [Serial_print_str ">"] s)).
    assert (exists c, peek (command sL) 0 = Some c /\
                      Ascii.eqb c "S" = false) as (c & Hpeek & Hc).
    { unfold sL, afterLine. cbn [command inCount emit]. rewrite Hk.
      destruct line as [|c line]; cbn.
      - by exists NUL.
      - exists c. split; [done|]. apply Ascii.eqb_neq.
        intros ->. by apply Hhead. }
    unfold interpret. rewrite Hpeek, Hc.
    destruct (Ascii.eqb c "D"); [|destruct (Ascii.eqb c "T")];
      cbn [andThen]; rewrite clearCommand_returns; eexists;
      (split; [reflexivity|done]).
  - intros Hin. unfold doCommand. cbn [cmdComplete serialIn emit].
    rewrite Hcc. rewrite readLine_partial; try done.
    + eexists. split; [reflexivity|done].
    + cbn [inCount emit]. rewrite Hk. by vm_compute.
  - intros Hm. unfold loop. rewrite Hm. cbn.
    destruct (measure_settings N analogIn (pollHost s))
      as (_ & _ & Hl & Hh & He & _).
    assert (eeprom (pollHost s) = eeprom s /\
            triggerLevelLow (pollHost s) = triggerLevelLow s /\
            triggerLevelHigh (pollHost s) = triggerLevelHigh s)
      as (He0 & Hl0 & Hh0).
    { unfold pollHost. destruct (serialIn s) as [|b rx]; [done|].
      by destruct (Ascii.eqb b "C"). }
    eexists. split; [reflexivity|].
    destruct (Ascii.eqb (mode (pollHost s)) "D"); [|done].
    by rewrite He, Hl, Hh.
Qed.

End ReachableStates.

(** ** Where the S command leaves the array *)

Lemma skipToken_none (l : list ascii) (q : nat) :
  Forall (fun c => Ascii.eqb c NUL = false /\ Ascii.eqb c SPACE = false) l ->
  skipToken l q = None.
Proof.
  intros Hl. revert q. induction Hl as [|c l [H1 H2] _ IH]; intros q;
    [reflexivity|]. cbn. rewrite H1, H2. cbn. apply IH.
Qed.

(** The line [S] alone on a buffer whose cells 2 to 78 hold neither a
    terminator nor a space. *)
Lemma parseLevels_S_alone (tok : list ascii) (x : ascii) :
  length tok = 77%nat ->
  Forall (fun c => isTokenChar c = true) tok ->
  parseLevels ("S"%char :: NUL :: tok ++ [x]) = None.
Proof.
  intros Hlen Htok. unfold parseLevels, cutToken. cbn [drop skipSpaces].
  change (negb (Ascii.eqb NUL NUL) && Ascii.eqb NUL SPACE) with false.
  cbn [mbind option_bind].
  destruct (Ascii.eqb x NUL || Ascii.eqb x SPACE) eqn:Hx.
  - rewrite (skipToken_run tok x []); [|done|].
    2: { apply orb_true_iff in Hx as [Hx | Hx];
           apply Ascii.eqb_eq in Hx; auto. }
    cbn [mbind option_bind]. rewrite Hlen.
    rewrite poke_inside by (unfold MAX_CMD_LEN; lia).
    cbn [mbind option_bind].
    rewrite (drop_ge _ (S (2 + 77))); [reflexivity|].
    rewrite length_insert. cbn. rewrite length_app, Hlen. cbn. lia.
  - apply orb_false_iff in Hx as [Hx1 Hx2].
    rewrite skipToken_none; [reflexivity|].
    apply Forall_app. split; [|by repeat constructor].
    eapply Forall_impl; [exact Htok|].
    intros c Hc. by apply isTokenChar_true in Hc as (? & ? & _).
Qed.

Section OutOfBounds.

Variables lowSlot highSlot : Z.

(** X15.  The S command can leave the array.  In a state that holds no
    partial line, if the cells 2 to 78 of the buffer hold neither a
    terminator nor a space (as they do after a line of 79 such
    characters), the line that consists of the letter S alone makes
    [setTriggerLevels] run its pointers past the last cell of [command]:
    [doCommand] has no defined result. *)
Theorem S_alone_leaves_the_array (t : ascii) (rest : list ascii)
    (s : State) :
  ready s -> isTerminator t = true ->
  serialIn s = "S"%char :: t :: rest ->
  Forall (fun c => isTokenChar c = true) (take 77 (drop 2 (command s))) ->
  doCommand lowSlot highSlot s = Undefined.
Proof.
  intros (Hwf & Hk & Hcc) Ht Hrx Hcells.
  rewrite (doCommand_line lowSlot highSlot ["S"%char] t rest); try done.
  2: { by repeat constructor. }
  change (fitting 0 ["S"%char]) with ["S"%char].
  unfold interpret.
  assert (command (afterLine ["S"%char] rest
                     (emit [Serial_print_str ">"] s))
          = "S"%char :: NUL :: drop 2 (command s)) as Hcmd.
  { unfold afterLine. cbn. by rewrite Hk. }
  rewrite Hcmd. cbn [peek andb Z.leb Z.ltb Z.compare MAX_CMD_LEN Z.to_nat
                     lookup list_lookup].
  change (Ascii.eqb "S" "D") with false.
  change (Ascii.eqb "S" "T") with false.
  change (Ascii.eqb "S" "S") with true. cbn match.
  rewrite setTriggerLevels_parse, Hcmd.
  unfold wellFormed in Hwf.
  assert (length (drop 2 (command s)) = 78%nat) as Hlen.
  { rewrite length_drop, Hwf. reflexivity. }
  destruct (drop 77 (drop 2 (command s))) as [|x [|y l]] eqn:Hlast.
  - apply (f_equal length) in Hlast. rewrite length_drop, Hlen in Hlast.
    discriminate.
  - rewrite <- (take_drop 77 (drop 2 (command s))), Hlast.
    rewrite parseLevels_S_alone; [reflexivity| |done].
    rewrite length_take, Hlen. reflexivity.
  - apply (f_equal length) in Hlast. rewrite length_drop, Hlen in Hlast.
    discriminate.
Qed.

End OutOfBounds.

(** ** The further theorems at concrete inputs *)

Lemma decimation_over_run_witness :
  (0 <= 1 < INT_MAX) /\ fresh scenarioStart /\
  Z.of_nat (countPrintln 0
              (trace (feed 1 [50; 120; 50; 120; 50; 120] scenarioStart))) =
    Z.of_nat (countPrintln 0 (trace scenarioStart)) +
    Z.of_nat (countRising 1 [50; 120; 50; 120; 50; 120] scenarioStart)
      / (1 + 1).
Proof.
  assert (0 <= 1 < INT_MAX) as HN by (by vm_compute).
  assert (fresh scenarioStart) as Hf by (by vm_compute).
  split; [exact HN|]. split; [exact Hf|].
  exact (decimation_over_run 1 HN [50; 120; 50; 120; 50; 120]
           scenarioStart Hf).
Defined.

Lemma reports_alternate_witness :
  (0 <= 1 < INT_MAX) /\ fresh scenarioStart /\
  (let s' := feed 1 [50; 120; 50; 120] scenarioStart in
   (countPrintln 0 (trace s') - countPrintln 0 (trace scenarioStart)
    = countPrintln 1 (trace s') - countPrintln 1 (trace scenarioStart)
      + (if onReportedPulse 1 s' then 1 else 0))%nat /\
   (forall level,
      ledLevel (trace scenarioStart) level = false ->
      ledLevel (trace s') level = onReportedPulse 1 s')) /\
  onReportedPulse 1 (feed 1 [50; 120; 50; 120] scenarioStart) = true.
Proof.
  assert (0 <= 1 < INT_MAX) as HN by (by vm_compute).
  assert (fresh scenarioStart) as Hf by (by vm_compute).
  split; [exact HN|]. split; [exact Hf|]. split; [|reflexivity].
  exact (reports_alternate 1 HN [50; 120; 50; 120] scenarioStart Hf).
Defined.

Lemma pulse_train_divided_witness :
  (0 <= 1 < INT_MAX) /\ fresh scenarioStart /\
  triggerLevelHigh scenarioStart < 120 /\
  50 <= triggerLevelHigh scenarioStart /\
  50 < triggerLevelLow scenarioStart /\
  feed 1 (pulses (3 * S (Z.to_nat 1)) 120 50) scenarioStart
    = emit (concat (replicate 3 (risingReport ++ fallingReport)))
        scenarioStart.
Proof.
  assert (0 <= 1 < INT_MAX) as HN by (by vm_compute).
  assert (fresh scenarioStart) as Hf by (by vm_compute).
  split; [exact HN|]. split; [exact Hf|].
  split; [reflexivity|]. split; [by vm_compute|]. split; [reflexivity|].
  apply (pulse_train_divided 1 HN 3 120 50 scenarioStart Hf);
    by vm_compute.
Defined.

(** The line [S 85 90]. *)
Lemma S_line_sets_levels_witness :
  disjointSlots 0 4 /\ ready (boot ∅ []) /\ isTerminator CR = true /\
  setsLevels 0 4
    ("S"%char :: replicate 1 SPACE ++ "8"%char :: ["5"%char] ++
       SPACE :: replicate 0 SPACE ++ "9"%char :: ["0"%char])
    (atoi ["8"%char; "5"%char]) (atoi ["9"%char; "0"%char])
    CR [] (boot ∅ []) /\
  atoi ["8"%char; "5"%char] = 85 /\ atoi ["9"%char; "0"%char] = 90.
Proof.
  assert (disjointSlots 0 4) as Hs by (left; lia).
  assert (ready (boot ∅ [])) as Hr by (by vm_compute).
  split; [exact Hs|]. split; [exact Hr|]. split; [reflexivity|].
  split; [|split; reflexivity].
  apply (S_line_sets_levels 0 4 Hs 1 0 "8" "9" ["5"%char] ["0"%char] CR []
           (boot ∅ []) Hr); try reflexivity.
  - repeat constructor.
  - repeat constructor.
  - cbn. lia.
Defined.

(** The line [S 85] on a device fresh from reset. *)
Lemma S_line_without_second_number_witness :
  disjointSlots 0 4 /\ ready (boot ∅ []) /\ isTerminator LF = true /\
  drop (S (1 + 1 + length ["5"%char]) + 1) (command (boot ∅ []))
    = NUL :: NUL :: replicate 73 NUL /\
  setsLevels 0 4 ("S"%char :: replicate 1 SPACE ++ "8"%char :: ["5"%char])
    (atoi ["8"%char; "5"%char]) 0 LF [] (boot ∅ []).
Proof.
  assert (disjointSlots 0 4) as Hs by (left; lia).
  assert (ready (boot ∅ [])) as Hr by (by vm_compute).
  split; [exact Hs|]. split; [exact Hr|]. split; [reflexivity|].
  split; [reflexivity|].
  apply (S_line_without_second_number 0 4 Hs 1 "8" NUL ["5"%char]
           (replicate 73 NUL) LF [] (boot ∅ []) Hr); try reflexivity.
  - repeat constructor.
  - cbn. lia.
  - by left.
Defined.

Lemma setTriggerLevels_footprint_witness :
  exists s',
    setTriggerLevels 0 4
      (set_command (txt "S 85 90" ++ replicate 73 NUL) (boot ∅ []))
      = Some s' /\
    length (command s') = 80%nat /\ trace s' = [] /\
    triggerLevelLow s' = 0 /\ eeprom s' !! 7 = None.
Proof.
  assert (exists s',
            setTriggerLevels 0 4
              (set_command (txt "S 85 90" ++ replicate 73 NUL) (boot ∅ []))
              = Some s') as [s' H]
    by (eexists; vm_compute; reflexivity).
  exists s'. split; [exact H|].
  destruct (setTriggerLevels_footprint 0 4 _ s' H)
    as (He & Hlen & _ & Hlo & _ & Htr & _).
  split; [exact Hlen|]. split; [exact Htr|]. split; [exact Hlo|].
  rewrite He by lia. reflexivity.
Defined.

Lemma doCommand_data_command_witness :
  wellFormed (boot ∅ (txt "Data" ++ [LF])) /\
  exists s',
    doCommand 0 4 (boot ∅ (txt "Data" ++ [LF])) = Returned s' /\
    mode s' = "D"%char /\ dataOutput s' = "R"%char /\ serialIn s' = [].
Proof.
  split; [reflexivity|]. eexists. split.
  - apply (doCommand_data_command 0 4 "D" (txt "ata") LF []);
      try reflexivity.
    + by left.
    + repeat constructor.
  - split_and!; reflexivity.
Defined.

Lemma doCommand_waits_for_line_end_witness :
  ready (boot ∅ (txt "S 85")) /\
  doCommand 0 4 (boot ∅ (txt "S 85")) =
    Waiting (partialLine (take 79 (txt "S 85"))
               (emit [Serial_print_str ">"] (boot ∅ (txt "S 85")))).
Proof.
  assert (ready (boot ∅ (txt "S 85"))) as Hr by (by vm_compute).
  split; [exact Hr|].
  apply (proj1 (doCommand_waits_for_line_end 0 4 _ Hr)).
  repeat constructor.
Defined.

Lemma reachable_invariant_witness :
  (0 <= 49 < INT_MAX) /\
  exists s',
    iterate 49 0 4 (fun _ => 512) 3
      (setup 0 4 (boot ∅ (txt "C" ++ txt "S 85 90" ++ [LF] ++ txt "T" ++ [CR])))
      = Returned s' /\
    reachableInv 49 0 4 s'.
Proof.
  assert (0 <= 49 < INT_MAX) as HN by (by vm_compute).
  split; [exact HN|].
  assert (exists s',
            iterate 49 0 4 (fun _ => 512) 3
              (setup 0 4
                 (boot ∅ (txt "C" ++ txt "S 85 90" ++ [LF] ++ txt "T" ++ [CR])))
              = Returned s') as [s' H]
    by (eexists; vm_compute; reflexivity).
  exists s'. split; [exact H|].
  exact (proj1 (reachable_invariant 49 0 4 (fun _ => 512) HN _ _ _ _ H)).
Defined.

Lemma trigger_mode_run_witness :
  mode scenarioStart = "D"%char /\ dataOutput scenarioStart = "T"%char /\
  iterate 1 0 4 (fun n => if Nat.even n then 50 else 120) 4 scenarioStart =
    Returned
      (set_serialIn (drop 4 (serialIn scenarioStart))
         (set_adcReads (adcReads scenarioStart + 4)
            (feed 1
               (readings (fun n => if Nat.even n then 50 else 120)
                  (adcReads scenarioStart) 4)
               scenarioStart))).
Proof.
  split; [reflexivity|]. split; [reflexivity|].
  apply (trigger_mode_run 1 0 4 (fun n => if Nat.even n then 50 else 120) 4
           scenarioStart); try reflexivity.
  constructor.
Defined.

Lemma raw_mode_run_witness :
  mode (set_dataOutput "R" (boot ∅ (txt "x"))) = "D"%char /\
  dataOutput (set_dataOutput "R" (boot ∅ (txt "x"))) = "R"%char /\
  iterate 49 0 4 (fun n => 500 + Z.of_nat n) 2
    (set_dataOutput "R" (boot ∅ (txt "x"))) =
    Returned
      (set_serialIn []
         (set_adcReads 2
            (emit [Serial_println_int 500; Serial_println_int 501]
               (set_dataOutput "R" (boot ∅ (txt "x")))))).
Proof.
  split; [reflexivity|]. split; [reflexivity|].
  apply (raw_mode_run 49 0 4 (fun n => 500 + Z.of_nat n) 2
           (set_dataOutput "R" (boot ∅ (txt "x")))); try reflexivity.
  repeat constructor; discriminate.
Defined.

Lemma calibration_changes_only_by_S_witness :
  ready (boot ∅ (txt "T" ++ [LF])) /\
  exists s',
    doCommand 0 4 (boot ∅ (txt "T" ++ [LF])) = Returned s' /\
    eeprom s' = eeprom (boot ∅ (txt "T" ++ [LF])) /\
    triggerLevelLow s' = triggerLevelLow (boot ∅ (txt "T" ++ [LF])) /\
    triggerLevelHigh s' = triggerLevelHigh (boot ∅ (txt "T" ++ [LF])).
Proof.
  assert (ready (boot ∅ (txt "T" ++ [LF]))) as Hr by (by vm_compute).
  split; [exact Hr|].
  destruct (calibration_changes_only_by_S 49 0 4 (fun _ => 512) _ Hr)
    as (Hline & _ & _).
  apply (Hline (txt "T") LF []); try reflexivity.
  - repeat constructor.
  - discriminate.
Defined.

Lemma S_alone_leaves_the_array_witness :
  ready (set_command ("S"%char :: NUL :: replicate 78 "x"%char)
           (boot ∅ (txt "S" ++ [LF]))) /\
  isTerminator LF = true /\
  doCommand 0 4
    (set_command ("S"%char :: NUL :: replicate 78 "x"%char)
       (boot ∅ (txt "S" ++ [LF])))
  = Undefined.
Proof.
  assert (ready (set_command ("S"%char :: NUL :: replicate 78 "x"%char)
                   (boot ∅ (txt "S" ++ [LF])))) as Hr by (by vm_compute).
  split; [exact Hr|]. split; [reflexivity|].
  apply (S_alone_leaves_the_array 0 4 LF [] _ Hr); try reflexivity.
  apply Forall_forall. intros c Hc.
  apply list_elem_of_In in Hc.
  cbn in Hc. repeat (destruct Hc as [<- | Hc]; [reflexivity|]). done.
Defined.
